(** * PyMercury release scripts: [deploy.py] and [run_tests.py]

    A shallow embedding of the two operational scripts of the repository and
    the properties of their specification.

    Modelling conventions.
    - A Python [str] is a list of 8-bit characters (code points 0..255).  A
      file holds either a text, which [open] decodes and encodes
      transparently, or bytes that text mode cannot decode; reading those
      raises [UnicodeDecodeError].
    - [re.match], [re.search] and [re.sub] are a small backtracking matcher
      over the atoms that occur in the three patterns of [deploy.py].
    - The file system is the manifest [pyproject.toml], its backup
      [pyproject.toml.backup] and the directory [dist/]; each of the two
      files is absent or a regular file that can be opened.
    - Statements with effects live in a state-and-exception monad; Python's
      [sys.exit] is the exception [SystemExit].
    - A printed message is its colour helper and its ASCII text; the
      pictograms and escape sequences of the helpers are left out. *)

From Stdlib Require Import Ascii String.
From Stdlib Require Import List Bool Arith ZArith Lia.
Import ListNotations.

(* ------------------------------------------------------------------ *)
(** * Text *)

Definition text := list ascii.

Definition txt (s : string) : text := list_ascii_of_string s.

Definition LF : ascii := "010"%char.
Definition CR : ascii := "013"%char.
Definition dquote : ascii := "034"%char.
Definition backslash : ascii := "092"%char.

Fixpoint text_eqb (a b : text) : bool :=
  match a, b with
  | [], [] => true
  | x :: a', y :: b' => Ascii.eqb x y && text_eqb a' b'
  | _, _ => false
  end.

Definition code (c : ascii) : nat := nat_of_ascii c.

Definition in_range (lo hi : nat) (c : ascii) : bool :=
  (lo <=? code c) && (code c <=? hi).

(** [str.isspace] on the code points 0..255. *)
Definition isspace (c : ascii) : bool :=
  in_range 9 13 c || in_range 28 32 c || (code c =? 133) || (code c =? 160).

(** [str.lower] on one code point of 0..255: A-Z, and the Latin-1 capitals
    U+00C0..U+00DE without the multiplication sign U+00D7. *)
Definition lower_char (c : ascii) : ascii :=
  if in_range 65 90 c
     || (in_range 192 222 c && negb (code c =? 215))
  then ascii_of_nat (code c + 32)
  else c.

Definition lower (s : text) : text := map lower_char s.

Fixpoint lstrip (s : text) : text :=
  match s with
  | c :: s' => if isspace c then lstrip s' else s
  | [] => []
  end.

Definition rstrip (s : text) : text := rev (lstrip (rev s)).

(** [str.strip()] *)
Definition strip (s : text) : text := rstrip (lstrip s).

(* ------------------------------------------------------------------ *)
(** * Regular expressions *)

Module Re.

(** The atoms of the patterns used by [deploy.py]. *)
Inductive atom :=
| Bol                                     (* ^ *)
| Eol                                     (* $ *)
| Lit (c : ascii)                         (* one literal character *)
| Plus (capture : bool) (cls : ascii -> bool).
    (* [cls]+ , greedy; [capture] when it is written inside ( ) *)

Definition lits (s : text) : list atom := map Lit s.

(** A successful match attempt: the text consumed, group 1, and the rest
    of the subject. *)
Definition hit := (text * option text * text)%type.

(** [^]: start of the subject; under MULTILINE also after a newline. *)
Definition at_bol (multiline : bool) (prev : option ascii) : bool :=
  match prev with
  | None => true
  | Some c => multiline && Ascii.eqb c LF
  end.

(** [$]: end of the subject or just before a newline that ends it; under
    MULTILINE before any newline. *)
Definition at_eol (multiline : bool) (s : text) : bool :=
  match s with
  | [] => true
  | c :: s' =>
      Ascii.eqb c LF && (multiline || match s' with [] => true | _ => false end)
  end.

(** Greedy [cls+] followed by the continuation [k]: take as many characters
    as possible, give back one at a time until [k] succeeds. *)
Fixpoint plus_loop (cls : ascii -> bool) (k : ascii -> text -> option hit)
         (s : text) : option (text * hit) :=
  match s with
  | [] => None
  | x :: s' =>
      if cls x then
        match plus_loop cls k s' with
        | Some (run, h) => Some (x :: run, h)
        | None =>
            match k x s' with
            | Some h => Some ([x], h)
            | None => None
            end
        end
      else None
  end.

(** Match the atoms [re] at the current position; [prev] is the character
    before it, [s] the subject from it on. *)
Fixpoint match_here (multiline : bool) (re : list atom)
         (prev : option ascii) (s : text) {struct re} : option hit :=
  match re with
  | [] => Some ([], None, s)
  | Bol :: re' =>
      if at_bol multiline prev then match_here multiline re' prev s else None
  | Eol :: re' =>
      if at_eol multiline s then match_here multiline re' prev s else None
  | Lit c :: re' =>
      match s with
      | x :: s' =>
          if Ascii.eqb x c then
            match match_here multiline re' (Some x) s' with
            | Some (m, g, r) => Some (x :: m, g, r)
            | None => None
            end
          else None
      | [] => None
      end
  | Plus capture cls :: re' =>
      match plus_loop cls
              (fun x s' => match_here multiline re' (Some x) s') s with
      | Some (run, (m, g, r)) =>
          Some (run ++ m, if capture then Some run else g, r)
      | None => None
      end
  end.

(** A match object: where the match starts, the matched text, group 1 and
    what follows. *)
Record Match := mkMatch {
  before : text;
  matched : text;
  group1 : option text;
  after : text
}.

(** [re.match]: the pattern at the start of the subject. *)
Definition re_match (multiline : bool) (re : list atom) (s : text)
  : option Match :=
  match match_here multiline re None s with
  | Some (m, g, r) => Some (mkMatch [] m g r)
  | None => None
  end.

(** [re.search]: the first position, left to right, where the pattern
    matches.  [skipped] is the text already passed, in reverse. *)
Fixpoint search_from (multiline : bool) (re : list atom)
         (skipped : text) (prev : option ascii) (s : text) : option Match :=
  match match_here multiline re prev s with
  | Some (m, g, r) => Some (mkMatch (rev skipped) m g r)
  | None =>
      match s with
      | [] => None
      | x :: s' => search_from multiline re (x :: skipped) (Some x) s'
      end
  end.

Definition re_search (multiline : bool) (re : list atom) (s : text)
  : option Match :=
  search_from multiline re [] None s.

Definition last_char (prev : option ascii) (m : text) : option ascii :=
  match rev m with
  | c :: _ => Some c
  | [] => prev
  end.

(** [re.sub] with count 0: every non-overlapping match, left to right, is
    replaced by [repl]; the text between matches is copied.  [repl] is the
    expansion of a template without backslash, which is the template itself.
    Each step consumes at least one character, so [length s + 1] steps are
    enough; after an empty match one character is copied. *)
Fixpoint sub_from (fuel : nat) (multiline : bool) (re : list atom)
         (repl : text) (prev : option ascii) (s : text) : text :=
  match fuel with
  | 0 => s
  | S fuel' =>
      match match_here multiline re prev s with
      | Some (m, _, r) =>
          match m, s with
          | [], x :: s' =>
              repl ++ x :: sub_from fuel' multiline re repl (Some x) s'
          | [], [] => repl
          | _ :: _, _ =>
              repl ++ sub_from fuel' multiline re repl (last_char prev m) r
          end
      | None =>
          match s with
          | [] => []
          | x :: s' => x :: sub_from fuel' multiline re repl (Some x) s'
          end
      end
  end.

Definition re_sub (multiline : bool) (re : list atom) (repl : text)
           (s : text) : text :=
  sub_from (S (length s)) multiline re repl None s.

End Re.

(* ------------------------------------------------------------------ *)
(** * The patterns of [deploy.py] *)

Definition digit (c : ascii) : bool := in_range 48 57 c.         (* [0-9] *)
Definition not_dquote (c : ascii) : bool := negb (Ascii.eqb c dquote).
Definition dot : ascii := "."%char.

(** [r'^[0-9]+\.[0-9]+\.[0-9]+$'] *)
Definition version_pattern : list Re.atom :=
  [Re.Bol; Re.Plus false digit; Re.Lit dot; Re.Plus false digit;
   Re.Lit dot; Re.Plus false digit; Re.Eol].

Definition version_key : text := txt "version = ".

(** The pattern of [get_current_version]: [^], the text [version = ], a
    double quote, the group [([^Q]+)] where [Q] is the double quote, and a
    closing double quote. *)
Definition version_line_read : list Re.atom :=
  Re.Bol :: Re.lits version_key
    ++ [Re.Lit dquote; Re.Plus true not_dquote; Re.Lit dquote].

(** The pattern of [update_version]: the same without the group. *)
Definition version_line_write : list Re.atom :=
  Re.Bol :: Re.lits version_key
    ++ [Re.Lit dquote; Re.Plus false not_dquote; Re.Lit dquote].

(** [validate_version], deploy.py lines 34-37. *)
Definition validate_version (version : text) : bool :=
  match Re.re_match false version_pattern version with
  | Some _ => true
  | None => false
  end.

(* ------------------------------------------------------------------ *)
(** * The world the scripts run in *)

(** The two files [deploy.py] touches. *)
Inductive path :=
| Manifest          (* pyproject.toml *)
| Backup.           (* pyproject.toml.backup *)

(** What the operator does at a prompt. *)
Inductive keyboard :=
| Types (line : text)      (* a line, without its newline *)
| CtrlC.                   (* an interrupt *)

(** The colour helpers of lines 15-32. *)
Inductive level := Plain | Info | Success | Warning | Error | Step.

(** What an observer of a run sees, oldest first. *)
Inductive event :=
| Print (l : level) (message : text)
| Prompt (message : text)
| CopyFile (src dst : path)
| WriteFile (p : path)
| RemoveFile (p : path)
| Exec (command : text).

(** What a file holds: a text, that is bytes that text mode decodes, or
    bytes that it cannot decode (a character cut in the middle by a partial
    write, a file in another encoding). *)
Inductive contents :=
| Text (t : list ascii)
| Undecodable (bytes : list ascii).

(** A text stands for the file contents that hold it: [manifest w = Some c]
    for a text [c] says that the manifest holds the text [c]. *)
#[warning="-uniform-inheritance"]
Coercion Text : list >-> contents.
Arguments Some {A} & a.

(** [dist] is the listing of [dist/], [None] when the directory does not
    exist; an exhausted [stdin] is end of file. *)
Record world := mkWorld {
  manifest : option contents;
  backup : option contents;
  dist : option (list text);
  stdin : list keyboard;
  log : list event
}.

(** How an external command ends.  The commands of [deploy.py] change
    nothing but build output, so the outcome carries the new [dist/]. *)
Inductive shell_outcome :=
| Completed (returncode : Z) (stdout stderr : text)
            (dist_after : option (list text))
| Interrupted (dist_after : option (list text))  (* Ctrl-C while it runs *)
| SpawnError.                                    (* the shell cannot start *)

(** How writing the manifest ends: what the file holds afterwards, and
    whether the write raised. *)
Inductive write_outcome :=
| Written (stored : contents)
| WriteError (stored : contents).

(** The exceptions the scripts can meet. *)
Inductive exn :=
| SystemExit (code : Z)
| KeyboardInterrupt
| FileNotFoundError (filename : path)
| UnicodeDecodeError
| ImportError (module : text)
| EOFError
| OSError
| CalledProcessError (stderr : text).

(** Everything a run does not control. *)
Record env := mkEnv {
  argv : list text;
  has_build : bool;                     (* [import build] succeeds *)
  has_twine : bool;                     (* [import twine] succeeds *)
  shell : text -> shell_outcome;
  disk_write : text -> write_outcome;
  wording : exn -> text       (* [str(e)] where the platform words it *)
}.

(** What the disk has stored is named [stored]; where nothing else is
    said it is a text. *)
Implicit Types stored : text.

(** A disk that stores what it is given. *)
Definition sound_disk (content : text) : write_outcome := Written content.

(** [except Exception] catches everything but the two that derive from
    [BaseException] only. *)
Definition is_Exception (e : exn) : bool :=
  match e with
  | SystemExit _ | KeyboardInterrupt => false
  | _ => true
  end.

(** The file names as the script spells them. *)
Definition name_of (p : path) : text :=
  match p with
  | Manifest => txt "pyproject.toml"
  | Backup => txt "pyproject.toml.backup"
  end.

(* ------------------------------------------------------------------ *)
(** * State and exceptions *)

Inductive res (A : Type) :=
| Ok (a : A)
| Raise (e : exn).
Arguments Ok {A} a.
Arguments Raise {A} e.

Definition M (A : Type) := env -> world -> res A * world.

Definition ret {A} (a : A) : M A := fun _ w => (Ok a, w).

Definition bind {A B} (m : M A) (k : A -> M B) : M B :=
  fun e w =>
    match m e w with
    | (Ok a, w') => k a e w'
    | (Raise x, w') => (Raise x, w')
    end.

Definition raise {A} (x : exn) : M A := fun _ w => (Raise x, w).

Notation "x <- m ;; k" := (bind m (fun x => k))
  (at level 61, m at next level, right associativity).
Notation "m ;; k" := (bind m (fun _ => k))
  (at level 61, right associativity).

(** [try: body / except ...:] with the clauses as a partial function. *)
Definition try_except {A} (body : M A) (handler : exn -> option (M A))
  : M A :=
  fun e w =>
    match body e w with
    | (Raise x, w') =>
        match handler x with
        | Some h => h e w'
        | None => (Raise x, w')
        end
    | r => r
    end.

Definition when (b : bool) (m : M unit) : M unit :=
  if b then m else ret tt.

Definition ask {A} (f : env -> A) : M A := fun e w => (Ok (f e), w).
Definition get {A} (f : world -> A) : M A := fun _ w => (Ok (f w), w).
Definition modify (f : world -> world) : M unit := fun _ w => (Ok tt, f w).

Definition emit (ev : event) : M unit :=
  modify (fun w => mkWorld (manifest w) (backup w) (dist w) (stdin w)
                           (log w ++ [ev])).

Definition file (p : path) (w : world) : option contents :=
  match p with
  | Manifest => manifest w
  | Backup => backup w
  end.

Definition set_file (p : path) (c : option contents) (w : world) : world :=
  match p with
  | Manifest => mkWorld c (backup w) (dist w) (stdin w) (log w)
  | Backup => mkWorld (manifest w) c (dist w) (stdin w) (log w)
  end.

Definition set_dist (d : option (list text)) (w : world) : world :=
  mkWorld (manifest w) (backup w) d (stdin w) (log w).

Definition set_stdin (i : list keyboard) (w : world) : world :=
  mkWorld (manifest w) (backup w) (dist w) i (log w).

(* ------------------------------------------------------------------ *)
(** * The library calls of [deploy.py] *)

(** Reading in text mode translates the line endings CR LF and CR to LF;
    writing on a POSIX system (the script shells out to [rm -rf]) writes LF
    as it is. *)
Fixpoint universal_newlines (b : text) : text :=
  match b with
  | [] => []
  | c :: b' =>
      if Ascii.eqb c CR then
        match b' with
        | d :: b'' =>
            if Ascii.eqb d LF then LF :: universal_newlines b''
            else LF :: universal_newlines b'
        | [] => [LF]
        end
      else c :: universal_newlines b'
  end.

(** [print] and the coloured helpers. *)
Definition print (m : text) : M unit := emit (Print Plain m).
Definition print_info (m : text) : M unit := emit (Print Info m).
Definition print_success (m : text) : M unit := emit (Print Success m).
Definition print_warning (m : text) : M unit := emit (Print Warning m).
Definition print_error (m : text) : M unit := emit (Print Error m).
Definition print_step (m : text) : M unit := emit (Print Step m).

(** [sys.exit(code)] *)
Definition sys_exit {A} (code : Z) : M A := raise (SystemExit code).

(** [os.path.exists(p)] *)
Definition os_path_exists (p : path) : M bool :=
  get (fun w => match file p w with Some _ => true | None => false end).

(** [str(e)] in the f-strings of lines 46, 95 and 244.  The texts of a
    missing file, a missing module and the end of input are Python's own;
    the others (an [OSError] of a write or of the shell, a decoding error)
    are worded by the platform. *)
Definition str_exn (x : exn) : M text :=
  match x with
  | FileNotFoundError p =>
      ret (txt "[Errno 2] No such file or directory: '" ++ name_of p
           ++ txt "'")
  | ImportError m => ret (txt "No module named '" ++ m ++ txt "'")
  | EOFError => ret (txt "EOF when reading a line")
  | _ => ask (fun e => wording e x)
  end.

(** [with open(p, 'r') as f: f.read()] *)
Definition read_text (p : path) : M text :=
  c <- get (file p) ;;
  match c with
  | Some (Text b) => ret (universal_newlines b)
  | Some (Undecodable _) => raise UnicodeDecodeError
  | None => raise (FileNotFoundError p)
  end.

(** [with open(p, 'w') as f: f.write(content)]: opening truncates the
    file; what it holds when the block is left is up to the disk. *)
Definition write_text (p : path) (content : text) : M unit :=
  emit (WriteFile p) ;;
  o <- ask (fun e => disk_write e content) ;;
  match o with
  | Written stored => modify (set_file p (Some stored))
  | WriteError stored => modify (set_file p (Some stored)) ;; raise OSError
  end.

(** [shutil.copy(src, dst)] copies bytes. *)
Definition shutil_copy (src dst : path) : M unit :=
  c <- get (file src) ;;
  match c with
  | Some b => emit (CopyFile src dst) ;; modify (set_file dst (Some b))
  | None => raise (FileNotFoundError src)
  end.

(** [os.remove(p)] *)
Definition os_remove (p : path) : M unit :=
  c <- get (file p) ;;
  match c with
  | Some _ => emit (RemoveFile p) ;; modify (set_file p None)
  | None => raise (FileNotFoundError p)
  end.

(** [import name] *)
Definition import_module (name : text) (present : env -> bool) : M unit :=
  ok <- ask present ;;
  if ok then ret tt else raise (ImportError name).

(** [input(prompt)] *)
Definition input (prompt : text) : M text :=
  emit (Prompt prompt) ;;
  i <- get stdin ;;
  match i with
  | Types line :: rest => modify (set_stdin rest) ;; ret line
  | CtrlC :: rest => modify (set_stdin rest) ;; raise KeyboardInterrupt
  | [] => raise EOFError
  end.

(** [subprocess.run(command, shell=True, check=True, capture_output=True,
    text=True)], giving the captured standard output. *)
Definition subprocess_run (command : text) : M text :=
  emit (Exec command) ;;
  o <- ask (fun e => shell e command) ;;
  match o with
  | Completed rc out err d =>
      modify (set_dist d) ;;
      if (rc =? 0)%Z then ret out else raise (CalledProcessError err)
  | Interrupted d => modify (set_dist d) ;; raise KeyboardInterrupt
  | SpawnError => raise OSError
  end.

(* ------------------------------------------------------------------ *)
(** * [deploy.py] *)

(** The pure part of [get_current_version]: group 1 of the first match in
    what text mode reads from a file that holds the text [b]. *)
Definition read_version (b : text) : option text :=
  match Re.re_search true version_line_read (universal_newlines b) with
  | Some m => Re.group1 m
  | None => None
  end.

(** [check_dependencies], lines 39-48. *)
Definition check_dependencies : M bool :=
  try_except
    (import_module (txt "build") has_build ;;
     import_module (txt "twine") has_twine ;;
     ret true)
    (fun e =>
       match e with
       | ImportError _ =>
           Some (s <- str_exn e ;;
                 print_error (txt "Missing dependency: " ++ s) ;;
                 print_info (txt "Install with: pip install build twine") ;;
                 ret false)
       | _ => None
       end).

(** [get_current_version], lines 50-61. *)
Definition get_current_version : M (option text) :=
  try_except
    (content <- read_text Manifest ;;
     match Re.re_search true version_line_read content with
     | Some m => ret (Re.group1 m)
     | None => ret None
     end)
    (fun e =>
       match e with
       | FileNotFoundError _ =>
           Some (print_error
                   (txt "pyproject.toml not found in current directory!") ;;
                 ret None)
       | _ => None
       end).

Definition option_text_eqb (a b : option text) : bool :=
  match a, b with
  | Some x, Some y => text_eqb x y
  | None, None => true
  | _, _ => false
  end.

(** The f-string of line 77: the key, and the version between quotes. *)
Definition version_line (v : text) : text :=
  version_key ++ dquote :: v ++ [dquote].

(** [update_version], lines 63-96.  The replacement is used as written:
    [main] passes only versions accepted by [validate_version], which hold
    no backslash, and a template without backslash stands for itself. *)
Definition update_version (new_version : text) : M bool :=
  try_except
    (shutil_copy Manifest Backup ;;
     print_success (txt "Backup created: pyproject.toml.backup") ;;
     content <- read_text Manifest ;;
     let updated_content :=
       Re.re_sub true version_line_write (version_line new_version) content in
     write_text Manifest updated_content ;;
     current <- get_current_version ;;
     if option_text_eqb current (Some new_version) then ret true
     else shutil_copy Backup Manifest ;; ret false)
    (fun e =>
       if is_Exception e then
         Some (s <- str_exn e ;;
               print_error (txt "Failed to update version: " ++ s) ;;
               ret false)
       else None).

(** [run_command], lines 98-109. *)
Definition run_command (command description : text) : M (bool * text) :=
  print_step description ;;
  try_except
    (out <- subprocess_run command ;;
     print_success (description ++ txt " completed") ;;
     ret (true, out))
    (fun e =>
       match e with
       | CalledProcessError stderr =>
           Some (print_error (description ++ txt " failed!") ;;
                 when (negb (text_eqb stderr []))
                      (print_error (txt "Error: " ++ stderr)) ;;
                 ret (false, stderr))
       | _ => None
       end).

(** [restore_backup], lines 111-116. *)
Definition restore_backup : M unit :=
  present <- os_path_exists Backup ;;
  when present
    (print_info (txt "Restoring backup...") ;;
     shutil_copy Backup Manifest ;;
     os_remove Backup).

(** The three external commands. *)
Definition clean_command : text := txt "rm -rf dist/ *.egg-info/ build/".
Definition build_command : text := txt "python -m build".
Definition upload_command : text := txt "python -m twine upload dist/*".

(** The test of lines 154-155 and 204-205 on what [input] returned:
    [input(...).strip().lower()] is compared with [y]. *)
Definition affirmative (line : text) : bool :=
  text_eqb (lower (strip line)) (txt "y").

(** [str(current_version)] in the f-strings. *)
Definition show_version (v : option text) : text :=
  match v with
  | Some s => s
  | None => txt "None"
  end.

(** A value as a condition: [None] and the empty string are false. *)
Definition truthy (v : option text) : bool :=
  match v with
  | Some (_ :: _) => true
  | _ => false
  end.

(** [not dist_path.exists() or not any(dist_path.iterdir())] *)
Definition no_build_output (d : option (list text)) : bool :=
  match d with
  | Some (_ :: _) => false
  | _ => true
  end.

Fixpoint print_names (names : list text) : M unit :=
  match names with
  | [] => ret tt
  | n :: names' => print (txt "  " ++ n) ;; print_names names'
  end.

(** The body of the [try] statement of [main], lines 160-237. *)
Definition deploy (version : text) (current_version : option text)
  : M unit :=
  print_step (txt "Updating version in pyproject.toml...") ;;
  updated <- update_version version ;;
  when (negb updated)
    (print_error (txt "Failed to update version in pyproject.toml") ;;
     sys_exit 1) ;;
  print_success (txt "Version updated: " ++ show_version current_version
                 ++ txt " -> " ++ version) ;;
  r <- run_command clean_command (txt "Cleaning up build artifacts") ;;
  when (negb (fst r)) (restore_backup ;; sys_exit 1) ;;
  r <- run_command build_command (txt "Building package") ;;
  when (negb (fst r)) (restore_backup ;; sys_exit 1) ;;
  d <- get dist ;;
  when (no_build_output d)
    (print_error (txt "No files found in dist/ directory after build") ;;
     restore_backup ;;
     sys_exit 1) ;;
  print_info (txt "Built files:") ;;
  print_names (match d with Some names => names | None => [] end) ;;
  print [] ;;
  print_warning (txt "About to upload to PyPI. Make sure you have:") ;;
  print_warning (txt "1. Configured your PyPI credentials (~/.pypirc or environment variables)") ;;
  print_warning (txt "2. Tested the package locally") ;;
  print_warning (txt "3. Updated documentation and changelog") ;;
  response <- input (LF :: txt "Continue with PyPI upload? (y/N): ") ;;
  when (negb (affirmative response))
    (print_warning (txt "Upload cancelled. Build artifacts remain in dist/") ;;
     print_info (txt "You can upload manually later with: python -m twine upload dist/*") ;;
     os_remove Backup ;;
     sys_exit 0) ;;
  r <- run_command upload_command (txt "Uploading to PyPI") ;;
  if fst r then
    print_success (txt "Successfully deployed version " ++ version
                   ++ txt " to PyPI!") ;;
    os_remove Backup ;;
    print [] ;;
    print_info (txt "Deployment Summary:") ;;
    print_info (txt "  Package: mercury-co-nz-api") ;;
    print_info (txt "  Version: " ++ version) ;;
    print_info (txt "  Previous: " ++ show_version current_version) ;;
    print_info (txt "  Status: Published to PyPI") ;;
    print [] ;;
    print_info (txt "Next steps:") ;;
    print_info (txt "1. Tag the release: git tag v" ++ version
                ++ txt " && git push origin v" ++ version) ;;
    print_info (txt "2. Create GitHub release with changelog") ;;
    print_info (txt "3. Update documentation if needed")
  else
    print_error (txt "Upload to PyPI failed!") ;;
    restore_backup ;;
    print_warning (txt "Build artifacts remain in dist/ for manual inspection") ;;
    sys_exit 1.

(** The two [except] clauses of lines 239-246. *)
Definition deploy_handler (e : exn) : option (M unit) :=
  match e with
  | KeyboardInterrupt =>
      Some (print_warning (LF :: txt "Deployment interrupted by user") ;;
            restore_backup ;;
            sys_exit 1)
  | _ =>
      if is_Exception e then
        Some (s <- str_exn e ;;
              print_error (txt "Unexpected error: " ++ s) ;;
              restore_backup ;;
              sys_exit 1)
      else None
  end.

(** [main], lines 118-246. *)
Definition main : M unit :=
  args <- ask argv ;;
  when (negb (length args =? 2))
    (print_error (txt "No version number provided!") ;;
     print (txt "Usage: python deploy.py <version>") ;;
     print (txt "Example: python deploy.py 1.0.5") ;;
     sys_exit 1) ;;
  let version := nth 1 args [] in
  when (negb (validate_version version))
    (print_error (txt "Invalid version format! Use semantic versioning (e.g., 1.0.5)") ;;
     sys_exit 1) ;;
  present <- os_path_exists Manifest ;;
  when (negb present)
    (print_error (txt "pyproject.toml not found in current directory!") ;;
     sys_exit 1) ;;
  print_step (txt "Checking required tools...") ;;
  deps <- check_dependencies ;;
  when (negb deps) (sys_exit 1) ;;
  print_success (txt "All required tools are available") ;;
  current_version <- get_current_version ;;
  when (negb (truthy current_version))
    (print_error (txt "Could not determine current version from pyproject.toml") ;;
     sys_exit 1) ;;
  print_info (txt "Current version: " ++ show_version current_version) ;;
  print_info (txt "New version: " ++ version) ;;
  response <- input (LF :: txt "Do you want to deploy version " ++ version
                     ++ txt "? (y/N): ") ;;
  when (negb (affirmative response))
    (print_warning (txt "Deployment cancelled") ;;
     sys_exit 0) ;;
  try_except (deploy version current_version) deploy_handler.

(** How the process ends. *)
Inductive termination :=
| Exit (code : Z)             (* fell off the end, or [sys.exit(code)] *)
| Uncaught (e : exn).         (* the interpreter's own handling *)

(** [if __name__ == "__main__": main()] *)
Definition run_deploy (e : env) (w : world) : termination * world :=
  match main e w with
  | (Ok _, w') => (Exit 0, w')
  | (Raise (SystemExit code), w') => (Exit code, w')
  | (Raise x, w') => (Uncaught x, w')
  end.

(* ------------------------------------------------------------------ *)
(** * [run_tests.py] *)

Module RunTests.

(** What the test runner does not control. *)
Record env := mkEnv {
  has_pytest : bool;          (* [import pytest] succeeds *)
  pytest_returncode : Z       (* exit status of the pytest subprocess *)
}.

(** Whether pytest was started, and what was printed. *)
Record world := mkWorld {
  started : bool;
  output : list text
}.

Definition say (m : text) (w : world) : world :=
  mkWorld (started w) (output w ++ [m]).

(** [main], lines 12-43; the result is its return value. *)
Definition main (e : env) (w : world) : Z * world :=
  let w := say (txt "PyMercury Library - Modern Test Suite") w in
  let w := say (repeat "="%char 50) w in
  if has_pytest e then
    let w := say (txt "pytest available") w in
    let w := say (LF :: txt "Running comprehensive test suite...") w in
    let w := mkWorld true (output w) in
    if (pytest_returncode e =? 0)%Z then
      let w := say (LF :: txt "ALL TESTS PASSED!") w in
      let w := say (txt "Refactored structure working correctly") w in
      let w := say (txt "All three services (Electricity, Gas, Broadband) tested") w in
      let w := say (txt "Complete import system validated") w in
      let w := say (txt "Error handling verified") w in
      let w := say (txt "Configuration system tested") w in
      let w := say (txt "API client functionality confirmed") w in
      (0%Z, w)
    else
      let w := say (LF :: txt "Some tests failed. Check output above.") w in
      (1%Z, w)
  else
    let w := say (txt "pytest not found. Install with: pip install pytest") w in
    (1%Z, w).

(** [exit_code = main(); sys.exit(exit_code)], lines 46-48. *)
Definition run (e : env) (w : world) : Z * world := main e w.

End RunTests.

(* ------------------------------------------------------------------ *)
(** * Notions the statements use *)

Fixpoint take_while (p : ascii -> bool) (s : text) : text :=
  match s with
  | c :: s' => if p c then c :: take_while p s' else []
  | [] => []
  end.

Fixpoint drop_while (p : ascii -> bool) (s : text) : text :=
  match s with
  | c :: s' => if p c then drop_while p s' else s
  | [] => []
  end.

Fixpoint strip_prefix (p s : text) : option text :=
  match p, s with
  | [], _ => Some s
  | a :: p', b :: s' => if Ascii.eqb b a then strip_prefix p' s' else None
  | _ :: _, [] => None
  end.

(** One or more decimal digits. *)
Definition digits (s : text) : Prop :=
  s <> [] /\ forallb digit s = true.

(** Three groups of digits separated by dots, and nothing else. *)
Definition three_groups (s : text) : Prop :=
  exists a b c,
    digits a /\ digits b /\ digits c /\ s = a ++ dot :: b ++ dot :: c.

(** A version line at the head of [s]: the quoted value and what follows
    the closing quote. *)
Definition version_at (s : text) : option (text * text) :=
  match strip_prefix (version_key ++ [dquote]) s with
  | Some r =>
      match take_while not_dquote r, drop_while not_dquote r with
      | c :: g, _ :: rest => Some (c :: g, rest)
      | _, _ => None
      end
  | None => None
  end.

(** [s] starts, at a position preceded by [prev], with a version line. *)
Definition starts_version_line (prev : option ascii) (s : text) : Prop :=
  Re.at_bol true prev = true /\
  exists old rest,
    old <> [] /\ forallb not_dquote old = true /\
    s = version_line old ++ rest.

(** [rewritten new prev s s']: [s'] is [s] with every version line that
    starts at the beginning of a line replaced, left to right, by the
    line of [new], and every other character copied. *)
Inductive rewritten (new : text) : option ascii -> text -> text -> Prop :=
| rewritten_nil prev :
    rewritten new prev [] []
| rewritten_line prev old rest rest' :
    Re.at_bol true prev = true ->
    old <> [] -> forallb not_dquote old = true ->
    rewritten new (Some dquote) rest rest' ->
    rewritten new prev (version_line old ++ rest) (version_line new ++ rest')
| rewritten_char prev c s s' :
    ~ starts_version_line prev (c :: s) ->
    rewritten new (Some c) s s' ->
    rewritten new prev (c :: s) (c :: s').

(** What [update_version] asks the disk to store for the bytes [b]. *)
Definition requested (new_version b : text) : text :=
  Re.re_sub true version_line_write (version_line new_version)
            (universal_newlines b).

(** The spec's reading of the rewrite: only the first version line
    changes, every other byte stays. *)
Definition first_line_only (new_version b : text) : option text :=
  match Re.re_search true version_line_read b with
  | Some m => Some (Re.before m ++ version_line new_version ++ Re.after m)
  | None => None
  end.

Definition lower_y : ascii := "y"%char.
Definition upper_y : ascii := "Y"%char.

(** A replacement template without backslash stands for itself. *)
Definition no_backslash (s : text) : bool :=
  forallb (fun c => negb (Ascii.eqb c backslash)) s.

(** No carriage return: text that newline translation leaves alone. *)
Definition no_CR (s : text) : bool :=
  forallb (fun c => negb (Ascii.eqb c CR)) s.

(** The characters of an accepted version. *)
Definition version_char (c : ascii) : bool :=
  digit c || Ascii.eqb c dot || Ascii.eqb c LF.

(** [re.sub] and [re.search] as [update_version] and
    [get_current_version] use them, from a position inside the text. *)
Definition sub_version (new : text) (fuel : nat) (prev : option ascii)
           (t : text) : text :=
  Re.sub_from fuel true version_line_write (version_line new) prev t.

Definition search_version (skipped : text) (prev : option ascii) (t : text)
  : option Re.Match :=
  Re.search_from true version_line_read skipped prev t.

(** The operator's keystrokes of a run. *)
Definition typing (keys : list keyboard) (w : world) : world :=
  set_stdin keys w.

(** The commands a list of events ran, in order. *)
Fixpoint executed (events : list event) : list text :=
  match events with
  | [] => []
  | Exec command :: events' => command :: executed events'
  | _ :: events' => executed events'
  end.

(** An event that touches nothing: a message or a question. *)
Definition quiet (ev : event) : bool :=
  match ev with
  | Print _ _ | Prompt _ => true
  | _ => false
  end.

Definition is_print (ev : event) : bool :=
  match ev with
  | Print _ _ => true
  | _ => false
  end.

(** The command ended with exit status 0. *)
Definition succeeded (o : shell_outcome) : bool :=
  match o with
  | Completed rc _ _ _ => (rc =? 0)%Z
  | _ => false
  end.

(** [dist/] after a command that was started from [d]. *)
Definition dist_left (o : shell_outcome) (d : option (list text))
  : option (list text) :=
  match o with
  | Completed _ _ _ d' | Interrupted d' => d'
  | SpawnError => d
  end.

(** The five checks of lines 120-148, in one condition. *)
Definition preflight (e : env) (w : world) : bool :=
  (length (argv e) =? 2)
  && validate_version (nth 1 (argv e) [])
  && match manifest w with
     | Some (Text c) => has_build e && has_twine e && truthy (read_version c)
     | _ => false
     end.

(** The question of line 154. *)
Definition first_question (version : text) : event :=
  Prompt (LF :: txt "Do you want to deploy version " ++ version
          ++ txt "? (y/N): ").

(* ------------------------------------------------------------------ *)
(** * A sample project *)

(** A manifest with a version line in two tables. *)
Definition sample_manifest : text :=
  txt "[project]" ++ LF :: version_line (txt "1.2.3") ++ LF :: LF ::
  txt "[tool.demo]" ++ LF :: version_line (txt "9.9.9") ++ [LF].

(** A manifest with CR LF line endings. *)
Definition crlf_manifest : text :=
  txt "[project]" ++ CR :: LF :: version_line (txt "1.2.3") ++ [CR; LF].

Definition sample_files : list text :=
  [txt "demo-1.2.4.tar.gz"; txt "demo-1.2.4-py3-none-any.whl"].

(** Every command succeeds; cleaning removes [dist/], building fills it. *)
Definition sample_shell (command : text) : shell_outcome :=
  if text_eqb command clean_command then Completed 0 [] [] None
  else Completed 0 [] [] (Some sample_files).

(** The build reports success and produces nothing: no [dist/] at all. *)
Definition barren_shell (command : text) : shell_outcome :=
  Completed 0 [] [] None.

(** A [dist/] that exists and holds no file. *)
Definition empty_dist : option (list text) := Some [].

(** The build reports success and leaves an empty [dist/]. *)
Definition hollow_shell (command : text) : shell_outcome :=
  if text_eqb command clean_command then Completed 0 [] [] None
  else Completed 0 [] [] empty_dist.

(** As [sample_shell], but [command] ends with status 1 and leaves
    [dist/] as [d]. *)
Definition failing_at (command : text) (d : option (list text))
           (c : text) : shell_outcome :=
  if text_eqb c command then Completed 1 [] (txt "error") d
  else sample_shell c.

(** A disk that silently stores an empty file. *)
Definition lossy_disk (content : text) : write_outcome := Written [].

(** A full disk: the file is truncated and the write raises. *)
Definition full_disk (content : text) : write_outcome := WriteError [].

(** The first byte of a two-byte UTF-8 character. *)
Definition half_character : ascii := "195"%char.

(** A write that stops in the middle of a character: the file ends with
    half of it and no longer decodes. *)
Definition torn_bytes : list ascii := txt "authors = [" ++ [half_character].

Definition tearing_disk (content : text) : write_outcome :=
  Written (Undecodable torn_bytes).

(** The texts of a Linux system with a UTF-8 locale. *)
Definition sample_wording (x : exn) : text :=
  match x with
  | UnicodeDecodeError =>
      txt "'utf-8' codec can't decode byte 0xc3 in position 14: unexpected end of data"
  | _ => txt "[Errno 28] No space left on device"
  end.

Definition sample_env (sh : text -> shell_outcome)
           (disk : text -> write_outcome) : env :=
  mkEnv [txt "deploy.py"; txt "1.2.4"] true true sh disk sample_wording.

Definition sample_world (keys : list keyboard) : world :=
  mkWorld (Some sample_manifest) None None keys [].

(* ------------------------------------------------------------------ *)
(** * Text and matcher lemmas *)

Lemma text_eqb_eq (a b : text) : text_eqb a b = true <-> a = b.
Proof.
  revert b; induction a as [|x a IH]; intros [|y b]; simpl;
    try (split; [discriminate | discriminate]); try tauto.
  rewrite andb_true_iff, Ascii.eqb_eq, IH.
  split; [intros [-> ->]; reflexivity | intros H; injection H; auto].
Qed.

Lemma text_eqb_refl (a : text) : text_eqb a a = true.
Proof. apply text_eqb_eq; reflexivity. Qed.

Lemma text_eqb_neq (a b : text) : text_eqb a b = false <-> a <> b.
Proof.
  rewrite <- text_eqb_eq. destruct (text_eqb a b); split; congruence.
Qed.

Lemma take_drop_while (p : ascii -> bool) (s : text) :
  s = take_while p s ++ drop_while p s.
Proof.
  induction s as [|c s IH]; simpl; [reflexivity|].
  destruct (p c); simpl; [f_equal; exact IH | reflexivity].
Qed.

Lemma take_while_all (p : ascii -> bool) (s : text) :
  forallb p (take_while p s) = true.
Proof.
  induction s as [|c s IH]; simpl; [reflexivity|].
  destruct (p c) eqn:E; simpl; [rewrite E; exact IH | reflexivity].
Qed.

Lemma drop_while_head (p : ascii -> bool) (s : text) c r :
  drop_while p s = c :: r -> p c = false.
Proof.
  induction s as [|x s IH]; simpl; [discriminate|].
  destruct (p x) eqn:E; [exact IH | intros H; injection H; congruence].
Qed.

Lemma take_while_app (p : ascii -> bool) (g : text) c r :
  forallb p g = true -> p c = false ->
  take_while p (g ++ c :: r) = g /\ drop_while p (g ++ c :: r) = c :: r.
Proof.
  intros Hg Hc; induction g as [|x g IH]; simpl in *.
  - rewrite Hc; auto.
  - apply andb_true_iff in Hg as [Hx Hg]. rewrite Hx.
    destruct (IH Hg) as [-> ->]; auto.
Qed.

Lemma take_while_all_id (p : ascii -> bool) (g : text) :
  forallb p g = true -> take_while p g = g /\ drop_while p g = [].
Proof.
  induction g as [|x g IH]; simpl; [auto|].
  intros H; apply andb_true_iff in H as [Hx Hg]. rewrite Hx.
  destruct (IH Hg) as [-> ->]; auto.
Qed.

Lemma strip_prefix_app (p s : text) : strip_prefix p (p ++ s) = Some s.
Proof.
  induction p as [|a p IH]; simpl; [reflexivity|].
  rewrite Ascii.eqb_refl; exact IH.
Qed.

Lemma strip_prefix_some (p s r : text) :
  strip_prefix p s = Some r -> s = p ++ r.
Proof.
  revert s; induction p as [|a p IH]; intros s; simpl.
  - intros H; injection H; auto.
  - destruct s as [|b s]; [discriminate|].
    destruct (Ascii.eqb b a) eqn:E; [|discriminate].
    apply Ascii.eqb_eq in E; subst b. intros H; f_equal; auto.
Qed.

Lemma last_cons {A : Type} (x y : A) (l : list A) (d d' : A) :
  last (x :: y :: l) d = last (y :: l) d'.
Proof.
  revert x y; induction l as [|z l IH]; intros x y; [reflexivity|].
  change (last (y :: z :: l) d = last (z :: l) d').
  rewrite (IH y z). 
  change (last (y :: z :: l) d') with (last (z :: l) d'). reflexivity.
Qed.

Lemma plus_loop_greedy (cls : ascii -> bool) k (s : text) :
  (forall x y s', cls y = true -> k x (y :: s') = None) ->
  Re.plus_loop cls k s =
    match take_while cls s with
    | [] => None
    | c :: run =>
        match k (last (c :: run) c) (drop_while cls s) with
        | Some h => Some (c :: run, h)
        | None => None
        end
    end.
Proof.
  intros Hk; induction s as [|x s IH]; [reflexivity|].
  cbn [Re.plus_loop take_while drop_while].
  destruct (cls x) eqn:Ex; [|reflexivity].
  rewrite IH. destruct (take_while cls s) as [|y run] eqn:T.
  - assert (D : drop_while cls s = s).
    { destruct s as [|y s]; [reflexivity|]. simpl in *. destruct (cls y); [discriminate|reflexivity]. }
    rewrite D. reflexivity.
  - rewrite (last_cons x y run x y).
    destruct (k (last (y :: run) y) (drop_while cls s)); [reflexivity|].
    destruct s as [|z s]; [discriminate|]. simpl in T.
    destruct (cls z) eqn:Ez; [|discriminate].
    rewrite (Hk x z s Ez). reflexivity.
Qed.

Lemma last_char_cons prev a (t : text) :
  Re.last_char prev (a :: t) = Re.last_char (Some a) t.
Proof.
  unfold Re.last_char. simpl.
  destruct (rev t) as [|c r] eqn:E; reflexivity.
Qed.

Lemma strip_prefix_split (p q s : text) :
  strip_prefix (p ++ q) s =
    match strip_prefix p s with
    | Some r => strip_prefix q r
    | None => None
    end.
Proof.
  revert s; induction p as [|a p IH]; intros s; simpl; [reflexivity|].
  destruct s as [|b s]; [reflexivity|].
  destruct (Ascii.eqb b a); [apply IH | reflexivity].
Qed.

Lemma match_here_lits ml (t : text) re prev s :
  Re.match_here ml (Re.lits t ++ re) prev s =
    match strip_prefix t s with
    | Some r =>
        match Re.match_here ml re (Re.last_char prev t) r with
        | Some (m, g, r') => Some (t ++ m, g, r')
        | None => None
        end
    | None => None
    end.
Proof.
  revert prev s; induction t as [|a t IH]; intros prev s.
  - simpl. unfold Re.last_char; simpl.
    destruct (Re.match_here ml re prev s) as [[[m g] r]|]; reflexivity.
  - cbn [Re.lits map app Re.match_here strip_prefix].
    destruct s as [|b s]; [reflexivity|].
    destruct (Ascii.eqb b a) eqn:E; [|reflexivity].
    apply Ascii.eqb_eq in E; subst b.
    fold (Re.lits t). rewrite IH, last_char_cons.
    destruct (strip_prefix t s) as [r|]; [|reflexivity].
    destruct (Re.match_here ml re (Re.last_char (Some a) t) r) as [[[m g] r']|];
      reflexivity.
Qed.

Lemma not_dquote_false c : not_dquote c = false -> c = dquote.
Proof.
  unfold not_dquote. destruct (Ascii.eqb c dquote) eqn:E; [|discriminate].
  intros _. apply Ascii.eqb_eq; exact E.
Qed.

Lemma match_version_line cap prev s :
  Re.match_here true
    (Re.Bol :: Re.lits version_key
       ++ [Re.Lit dquote; Re.Plus cap not_dquote; Re.Lit dquote]) prev s =
  if Re.at_bol true prev then
    match version_at s with
    | Some (g, rest) =>
        Some (version_line g, if cap then Some g else None, rest)
    | None => None
    end
  else None.
Proof.
  cbn [Re.match_here]. destruct (Re.at_bol true prev); [|reflexivity].
  rewrite match_here_lits. unfold version_at. rewrite strip_prefix_split.
  destruct (strip_prefix version_key s) as [r|]; [|reflexivity].
  cbn [Re.match_here strip_prefix].
  destruct r as [|q r]; [reflexivity|].
  destruct (Ascii.eqb q dquote) eqn:Eq; [|reflexivity].
  apply Ascii.eqb_eq in Eq; subst q.
  rewrite plus_loop_greedy.
  2:{ intros x y s' Hy. unfold not_dquote in Hy.
      destruct (Ascii.eqb y dquote); [discriminate | reflexivity]. }
  destruct (take_while not_dquote r) as [|c g] eqn:T; [reflexivity|].
  destruct (drop_while not_dquote r) as [|x rest] eqn:D; [reflexivity|].
  rewrite (not_dquote_false x (drop_while_head _ _ _ _ D)).
  rewrite Ascii.eqb_refl. unfold version_line.
  reflexivity.
Qed.

Lemma version_at_some (s g rest : text) :
  version_at s = Some (g, rest) <->
  g <> [] /\ forallb not_dquote g = true /\ s = version_line g ++ rest.
Proof.
  unfold version_at, version_line. split.
  - destruct (strip_prefix (version_key ++ [dquote]) s) as [r|] eqn:P;
      [|discriminate].
    apply strip_prefix_some in P.
    destruct (take_while not_dquote r) as [|c g'] eqn:T; [discriminate|].
    destruct (drop_while not_dquote r) as [|x rest'] eqn:D; [discriminate|].
    intros H; injection H as <- <-.
    pose proof (take_while_all not_dquote r) as A. rewrite T in A.
    pose proof (take_drop_while not_dquote r) as E. rewrite T, D in E.
    rewrite (not_dquote_false x (drop_while_head _ _ _ _ D)) in E.
    repeat split; [discriminate | exact A |].
    rewrite P, E. rewrite <- !app_assoc. cbn [app]. rewrite <- !app_assoc. reflexivity.
  - intros (Hne & Hall & ->).
    replace ((version_key ++ dquote :: g ++ [dquote]) ++ rest)
      with ((version_key ++ [dquote]) ++ g ++ dquote :: rest)
      by (rewrite <- !app_assoc; cbn [app]; rewrite <- !app_assoc; reflexivity).
    rewrite strip_prefix_app.
    destruct (take_while_app not_dquote g dquote rest Hall eq_refl) as [-> ->].
    destruct g; [congruence | reflexivity].
Qed.

Lemma version_at_none (prev : option ascii) (s : text) :
  Re.at_bol true prev = false \/ version_at s = None ->
  ~ starts_version_line prev s.
Proof.
  intros [H|H] (B & old & rest & Hne & Hall & E).
  - congruence.
  - assert (version_at s = Some (old, rest)) by (apply version_at_some; auto).
    congruence.
Qed.

Lemma last_char_snoc prev (a : text) c : Re.last_char prev (a ++ [c]) = Some c.
Proof. unfold Re.last_char. rewrite rev_app_distr. reflexivity. Qed.

Lemma version_line_last prev g : Re.last_char prev (version_line g) = Some dquote.
Proof.
  unfold version_line.
  replace (version_key ++ dquote :: g ++ [dquote])
    with ((version_key ++ dquote :: g) ++ [dquote])
    by (rewrite <- app_assoc; reflexivity).
  apply last_char_snoc.
Qed.

Lemma version_line_length g : length (version_line g) = 12 + length g.
Proof.
  unfold version_line. rewrite length_app. simpl. rewrite length_app. simpl. lia.
Qed.

(** [re.sub] on the pattern of [update_version] rewrites every version
    line and copies the rest. *)
Lemma sub_from_rewritten (new : text) (fuel : nat) :
  forall prev s,
    length s < fuel ->
    rewritten new prev s
      (Re.sub_from fuel true version_line_write (version_line new) prev s).
Proof.
  induction fuel as [|fuel IH]; intros prev s Hlen; [lia|].
  cbn [Re.sub_from]. unfold version_line_write.
  rewrite match_version_line.
  destruct (Re.at_bol true prev) eqn:B.
  - destruct (version_at s) as [[g rest]|] eqn:V.
    + apply version_at_some in V as (Hne & Hall & ->).
      pose proof (version_line_length g) as L.
      assert (Hr : length rest < fuel)
        by (rewrite length_app, L in Hlen; lia).
      destruct (version_line g) as [|v0 vl] eqn:EV; [simpl in L; lia|].
      rewrite <- EV, version_line_last.
      apply rewritten_line; auto.
    + destruct s as [|x s]; [constructor|].
      apply rewritten_char; [apply version_at_none; auto|].
      apply IH. simpl in Hlen. lia.
  - destruct s as [|x s]; [constructor|].
    apply rewritten_char; [apply version_at_none; auto|].
    apply IH. simpl in Hlen. lia.
Qed.

Lemma re_sub_rewritten (new s : text) :
  rewritten new None s
    (Re.re_sub true version_line_write (version_line new) s).
Proof. unfold Re.re_sub. apply sub_from_rewritten. lia. Qed.

(** What [re.search] finds for the pattern of [get_current_version]. *)
Lemma search_from_version (s : text) :
  forall skipped prev m,
    Re.search_from true version_line_read skipped prev s = Some m ->
    exists old,
      Re.group1 m = Some old /\ old <> [] /\ forallb not_dquote old = true /\
      Re.matched m = version_line old /\
      rev skipped ++ s = Re.before m ++ version_line old ++ Re.after m.
Proof.
  induction s as [|x s IH]; intros skipped prev m;
    cbn [Re.search_from]; unfold version_line_read;
    rewrite match_version_line.
  - destruct (Re.at_bol true prev); [|discriminate].
    destruct (version_at []) as [[g rest]|] eqn:V; [|discriminate].
    apply version_at_some in V as (Hne & Hall & E).
    intros H; injection H as <-. exists g.
    cbn [Re.group1 Re.matched Re.before Re.after]. rewrite <- E. auto.
  - assert (K : Re.search_from true version_line_read (x :: skipped) (Some x) s = Some m ->
                exists old,
      Re.group1 m = Some old /\ old <> [] /\ forallb not_dquote old = true /\
      Re.matched m = version_line old /\
      rev skipped ++ x :: s = Re.before m ++ version_line old ++ Re.after m).
    { intros H. destruct (IH _ _ _ H) as (old & ? & ? & ? & ? & E).
      exists old. cbn [rev] in E. rewrite <- app_assoc in E. cbn [app] in E. auto. }
    destruct (Re.at_bol true prev); [|exact K].
    destruct (version_at (x :: s)) as [[g rest]|] eqn:V; [|exact K].
    apply version_at_some in V as (Hne & Hall & E).
    intros H; injection H as <-. exists g.
    cbn [Re.group1 Re.matched Re.before Re.after]. rewrite <- E. auto.
Qed.

Lemma read_version_nonempty (b old : text) :
  read_version b = Some old -> old <> [] /\ forallb not_dquote old = true.
Proof.
  unfold read_version, Re.re_search.
  destruct (Re.search_from true version_line_read [] None (universal_newlines b))
    as [m|] eqn:S; [|discriminate].
  destruct (search_from_version _ _ _ _ S) as (o & G & Hne & Hall & _).
  rewrite G. intros H; injection H as <-. auto.
Qed.

Lemma digit_not_dot y : digit y = true -> Ascii.eqb y dot = false.
Proof.
  destruct y as [[] [] [] [] [] [] [] []]; vm_compute; intros H;
    first [reflexivity | discriminate].
Qed.

Lemma digit_not_LF y : digit y = true -> Ascii.eqb y LF = false.
Proof.
  destruct y as [[] [] [] [] [] [] [] []]; vm_compute; intros H;
    first [reflexivity | discriminate].
Qed.

Lemma digit_not_backslash y : digit y = true -> Ascii.eqb y backslash = false.
Proof.
  destruct y as [[] [] [] [] [] [] [] []]; vm_compute; intros H;
    first [reflexivity | discriminate].
Qed.

Lemma digits_take (s : text) c run :
  take_while digit s = c :: run -> digits (c :: run).
Proof.
  intros T. split; [discriminate|].
  rewrite <- T. apply take_while_all.
Qed.

Ltac greedy :=
  rewrite plus_loop_greedy
    by (intros ? y ? Hy; cbn beta iota;
        first [ rewrite (digit_not_dot y Hy)
              | cbn [Re.at_eol]; rewrite (digit_not_LF y Hy) ];
        reflexivity).

(** What [validate_version] accepts: three groups of digits, and
    possibly one newline after them. *)
Lemma validate_version_iff (s : text) :
  validate_version s = true <->
  exists a b c tail,
    digits a /\ digits b /\ digits c /\ (tail = [] \/ tail = [LF]) /\
    s = a ++ dot :: b ++ dot :: c ++ tail.
Proof.
  unfold validate_version, Re.re_match, version_pattern.
  cbn [Re.match_here Re.at_bol].
  split.
  - greedy.
    destruct (take_while digit s) as [|a0 a] eqn:Ta; [discriminate|].
    destruct (drop_while digit s) as [|d1 r1] eqn:Da; [discriminate|].
    destruct (Ascii.eqb d1 dot) eqn:E1; [|discriminate].
    apply Ascii.eqb_eq in E1; subst d1.
    greedy.
    destruct (take_while digit r1) as [|b0 b] eqn:Tb; [discriminate|].
    destruct (drop_while digit r1) as [|d2 r2] eqn:Db; [discriminate|].
    destruct (Ascii.eqb d2 dot) eqn:E2; [|discriminate].
    apply Ascii.eqb_eq in E2; subst d2.
    greedy.
    destruct (take_while digit r2) as [|c0 c] eqn:Tc; [discriminate|].
    destruct (Re.at_eol false (drop_while digit r2)) eqn:Eo; [|discriminate].
    intros _.
    exists (a0 :: a), (b0 :: b), (c0 :: c), (drop_while digit r2).
    split; [eapply digits_take; eassumption|].
    split; [eapply digits_take; eassumption|].
    split; [eapply digits_take; eassumption|].
    split.
    + destruct (drop_while digit r2) as [|e [|e' r3]]; [auto | | ].
      * right. cbn in Eo. rewrite andb_true_r in Eo.
        apply Ascii.eqb_eq in Eo; subst; reflexivity.
      * cbn in Eo. rewrite andb_false_r in Eo. discriminate.
    + rewrite (take_drop_while digit s), Ta, Da.
      rewrite (take_drop_while digit r1), Tb, Db.
      rewrite (take_drop_while digit r2) at 1. rewrite Tc.
      reflexivity.
  - intros (a & b & c & tail & [Na Ha] & [Nb Hb] & [Nc Hc] & Ht & ->).
    assert (Tc : take_while digit (c ++ tail) = c /\ drop_while digit (c ++ tail) = tail).
    { destruct Ht as [-> | ->].
      - rewrite app_nil_r. apply take_while_all_id; exact Hc.
      - apply take_while_app; [exact Hc | reflexivity]. }
    destruct Tc as [Tc Dc].
    destruct (take_while_app digit b dot (c ++ tail) Hb eq_refl) as [Tb Db].
    destruct (take_while_app digit a dot (b ++ dot :: c ++ tail) Ha eq_refl) as [Ta Da].
    greedy. rewrite Ta, Da.
    destruct a as [|a0 a]; [congruence|].
    rewrite Ascii.eqb_refl.
    greedy. rewrite Tb, Db.
    destruct b as [|b0 b]; [congruence|].
    rewrite Ascii.eqb_refl.
    greedy. rewrite Tc, Dc.
    destruct c as [|c0 c]; [congruence|].
    destruct Ht as [-> | ->]; reflexivity.
Qed.

(* ------------------------------------------------------------------ *)
(** * The rewrite and the read after it *)

Lemma universal_newlines_no_CR (b : text) :
  no_CR (universal_newlines b) = true.
Proof.
  assert (G : forall n b, length b <= n -> no_CR (universal_newlines b) = true).
  { induction n as [|n IH]; intros [|x t] L; try reflexivity; cbn in L; [lia|].
    cbn [universal_newlines]. destruct (Ascii.eqb x CR) eqn:E.
    - destruct t as [|y t']; [reflexivity|].
      destruct (Ascii.eqb y LF); cbn [no_CR forallb];
        change (forallb (fun c => negb (Ascii.eqb c CR)) ?l) with (no_CR l);
        rewrite IH; try reflexivity; cbn in L |- *; lia.
    - cbn [no_CR forallb]. rewrite E.
      change (forallb (fun c => negb (Ascii.eqb c CR)) ?l) with (no_CR l).
      rewrite IH; [reflexivity | lia]. }
  apply (G (length b)). lia.
Qed.

Lemma universal_newlines_id (s : text) :
  no_CR s = true -> universal_newlines s = s.
Proof.
  induction s as [|x s IH]; [reflexivity|].
  cbn [no_CR forallb universal_newlines]. intros H.
  apply andb_true_iff in H as [Hx Hs].
  destruct (Ascii.eqb x CR); [discriminate Hx|].
  f_equal. apply IH. exact Hs.
Qed.

Lemma no_CR_app (a b : text) : no_CR (a ++ b) = no_CR a && no_CR b.
Proof. apply forallb_app. Qed.

Lemma no_CR_version_line (v : text) : no_CR (version_line v) = no_CR v.
Proof.
  unfold version_line. rewrite no_CR_app.
  change (no_CR (dquote :: v ++ [dquote])) with (no_CR (v ++ [dquote])).
  rewrite no_CR_app. change (no_CR [dquote]) with true.
  rewrite andb_true_r. reflexivity.
Qed.

Lemma rewritten_no_CR (new : text) prev s s' :
  rewritten new prev s s' ->
  no_CR new = true -> no_CR s = true -> no_CR s' = true.
Proof.
  intros R Hn.
  induction R as [prev|prev old rest rest' B Ne Q R IH|prev c s s' N R IH].
  - auto.
  - rewrite !no_CR_app, !no_CR_version_line. intros H.
    apply andb_true_iff in H as [_ H]. rewrite Hn, IH by exact H.
    reflexivity.
  - cbn [no_CR forallb]. fold (no_CR s) (no_CR s').
    intros H; apply andb_true_iff in H as [-> H]. rewrite IH by exact H.
    reflexivity.
Qed.

(** A decision taken inside a prefix that ends with a double quote does not
    depend on what follows the prefix. *)
Lemma strip_prefix_short (p u a : text) :
  length p <= length u ->
  strip_prefix p (u ++ a) =
    match strip_prefix p u with
    | Some r => Some (r ++ a)
    | None => None
    end.
Proof.
  revert u; induction p as [|x p IH]; intros u L; [reflexivity|].
  destruct u as [|y u]; [cbn in L; lia|].
  cbn [app strip_prefix]. destruct (Ascii.eqb y x); [|reflexivity].
  apply IH. cbn in L. lia.
Qed.

Lemma take_while_stops (u a : text) :
  forallb not_dquote u = false ->
  take_while not_dquote (u ++ a) = take_while not_dquote u /\
  exists q r, drop_while not_dquote u = q :: r /\
              drop_while not_dquote (u ++ a) = q :: r ++ a.
Proof.
  induction u as [|x u IH]; [discriminate|].
  cbn [forallb app take_while drop_while].
  destruct (not_dquote x) eqn:E; cbn [andb].
  - intros H. destruct (IH H) as (T & q & r & D1 & D2).
    rewrite T. split; [reflexivity|]. exists q, r. auto.
  - intros _. split; [reflexivity|]. exists x, u. auto.
Qed.

Lemma version_at_prefix (u a a' : text) :
  12 <= length u ->
  (exists u0, u = u0 ++ [dquote]) ->
  version_at (u ++ a) = None -> version_at (u ++ a') = None.
Proof.
  intros L (u0 & E). unfold version_at.
  rewrite !strip_prefix_short by (cbn; lia).
  destruct (strip_prefix (version_key ++ [dquote]) u) as [r|] eqn:P;
    [|reflexivity].
  assert (Q : forallb not_dquote r = false).
  { apply strip_prefix_some in P. 
    assert (Lr : r <> []).
    { intros ->. rewrite app_nil_r in P. rewrite P in L. cbn in L. lia. }
    destruct (exists_last Lr) as (r0 & z & ->).
    rewrite app_assoc in P. rewrite E in P.
    apply app_inj_tail in P as [_ <-].
    rewrite forallb_app. cbn. apply andb_false_r. }
  destruct (take_while_stops r a Q) as (T & q & t & D1 & D2).
  destruct (take_while_stops r a' Q) as (T' & q' & t' & D1' & D2').
  rewrite T, T', D2, D2'.
  destruct (take_while not_dquote r); auto. discriminate.
Qed.

Lemma match_read prev s :
  Re.match_here true version_line_read prev s =
  if Re.at_bol true prev then
    match version_at s with
    | Some (g, rest) => Some (version_line g, Some g, rest)
    | None => None
    end
  else None.
Proof. apply (match_version_line true). Qed.

Lemma match_write prev s :
  Re.match_here true version_line_write prev s =
  if Re.at_bol true prev then
    match version_at s with
    | Some (g, rest) => Some (version_line g, None, rest)
    | None => None
    end
  else None.
Proof. apply (match_version_line false). Qed.

Lemma version_line_split (x : ascii) (pre v rest : text) :
  x :: pre ++ version_line v ++ rest =
  (x :: pre ++ version_key ++ [dquote]) ++ v ++ dquote :: rest.
Proof.
  unfold version_line. cbn [app]. f_equal.
  rewrite <- !app_assoc. f_equal. f_equal.
  cbn [app]. f_equal. rewrite <- app_assoc. reflexivity.
Qed.

Lemma version_at_nil : version_at [] = None.
Proof. reflexivity. Qed.

Section SoundWrite.

Variable new : text.
Hypothesis new_nonempty : new <> [].
Hypothesis new_unquoted : forallb not_dquote new = true.

(** Up to the first version line [re.sub] copies, then it writes the new
    line. *)
Lemma sub_shape (t : text) :
  forall fuel skipped prev m,
    length t < fuel ->
    search_version skipped prev t = Some m ->
    exists pre old post tail,
      t = pre ++ version_line old ++ post /\
      sub_version new fuel prev t = pre ++ version_line new ++ tail.
Proof.
  unfold sub_version, search_version.
  induction t as [|x t IH]; intros [|fuel] skipped prev m L; try (cbn in L; lia);
    cbn [Re.sub_from Re.search_from]; rewrite match_read, match_write.
  - rewrite version_at_nil. destruct (Re.at_bol true prev); discriminate.
  - assert (K : Re.search_from true version_line_read (x :: skipped) (Some x) t = Some m ->
      exists pre old post tail,
        x :: t = pre ++ version_line old ++ post /\
        x :: Re.sub_from fuel true version_line_write (version_line new) (Some x) t
          = pre ++ version_line new ++ tail).
    { intros S. destruct (IH fuel _ _ _ ltac:(cbn in L; lia) S)
        as (pre & old & post & tail & E1 & E2).
      exists (x :: pre), old, post, tail. cbn [app]. rewrite <- E1, E2. auto. }
    destruct (Re.at_bol true prev); [|exact K].
    destruct (version_at (x :: t)) as [[g rest]|] eqn:V; [|exact K].
    intros _. apply version_at_some in V as (Ne & Q & E).
    pose proof (version_line_length g) as Lg.
    destruct (version_line g) as [|v0 vl] eqn:EV; [cbn in Lg; lia|].
    exists [], g, rest. eexists. rewrite EV. split; [exact E|]. reflexivity.
Qed.

Lemma search_hit skipped prev (tail : text) :
  Re.at_bol true prev = true ->
  search_version skipped prev (version_line new ++ tail) =
    Some (Re.mkMatch (rev skipped) (version_line new) (Some new) tail).
Proof.
  intros B. unfold search_version.
  pose proof (version_line_length new) as Ln.
  destruct (version_line new ++ tail) as [|y0 yl] eqn:EN.
  { apply (f_equal (@length ascii)) in EN. rewrite length_app in EN.
    cbn in EN. lia. }
  cbn [Re.search_from]. rewrite <- EN, match_read, B.
  rewrite (proj2 (version_at_some (version_line new ++ tail) new tail));
    auto.
Qed.

(** In what [re.sub] produced, [re.search] finds the new version. *)
Lemma search_in_sub (t : text) :
  forall fuel skipped skipped' prev m,
    length t < fuel ->
    search_version skipped prev t = Some m ->
    exists m',
      search_version skipped' prev (sub_version new fuel prev t) = Some m' /\
      Re.group1 m' = Some new.
Proof.
  induction t as [|x t IH]; intros [|fuel] skipped skipped' prev m L;
    try (cbn in L; lia).
  - unfold search_version. cbn [Re.search_from].
    rewrite match_read, version_at_nil.
    destruct (Re.at_bol true prev); discriminate.
  - intros S.
    assert (K : Re.at_bol true prev = false \/ version_at (x :: t) = None ->
      search_version (x :: skipped) (Some x) t = Some m ->
      exists m',
        search_version skipped' prev (x :: sub_version new fuel (Some x) t) = Some m' /\
        Re.group1 m' = Some new).
    { intros N S1.
      destruct (IH fuel _ (x :: skipped') _ _ ltac:(cbn in L; lia) S1)
        as (m' & S' & G).
      exists m'. split; [|exact G].
      unfold search_version. cbn [Re.search_from]. rewrite match_read.
      destruct (Re.at_bol true prev) eqn:B; [|exact S'].
      destruct N as [N|N]; [discriminate N|].
      destruct (sub_shape t fuel _ _ _ ltac:(cbn in L; lia) S1)
        as (pre & old & post & tail & E1 & E2).
      assert (Lu : 12 <= length (x :: pre ++ version_key ++ [dquote]))
        by (cbn [length]; rewrite length_app; cbn; lia).
      assert (Eu : exists u0,
                 x :: pre ++ version_key ++ [dquote] = u0 ++ [dquote])
        by (exists (x :: pre ++ version_key);
            cbn [app]; rewrite <- app_assoc; reflexivity).
      assert (N' : version_at (x :: sub_version new fuel (Some x) t) = None).
      { rewrite E2, version_line_split.
        apply (version_at_prefix _ (old ++ dquote :: post) _ Lu Eu).
        rewrite <- version_line_split, <- E1. exact N. }
      rewrite N'. exact S'. }
    revert S. unfold search_version at 1, sub_version at 1.
    cbn [Re.sub_from Re.search_from]. rewrite match_read, match_write.
    destruct (Re.at_bol true prev) eqn:B; [|apply K; auto].
    destruct (version_at (x :: t)) as [[g rest]|] eqn:V; [|apply K; auto].
    intros _. pose proof (version_line_length g) as Lg.
    destruct (version_line g) as [|v0 vl] eqn:EV; [cbn in Lg; lia|].
    rewrite search_hit by exact B. eexists. split; reflexivity.
Qed.

End SoundWrite.

Lemma forallb_weaken (p q : ascii -> bool) (s : text) :
  (forall c, p c = true -> q c = true) ->
  forallb p s = true -> forallb q s = true.
Proof.
  intros I; induction s as [|x s IH]; [reflexivity|].
  cbn [forallb]. intros H; apply andb_true_iff in H as [Hx Hs].
  rewrite (I x Hx), IH by exact Hs. reflexivity.
Qed.

Lemma version_char_plain (c : ascii) :
  version_char c = true ->
  not_dquote c = true /\ negb (Ascii.eqb c CR) = true /\
  negb (Ascii.eqb c backslash) = true.
Proof.
  destruct c as [[] [] [] [] [] [] [] []]; vm_compute; intros H;
    first [discriminate H | auto].
Qed.

Lemma validate_version_chars (v : text) :
  validate_version v = true ->
  v <> [] /\ forallb version_char v = true.
Proof.
  intros H. apply validate_version_iff in H
    as (a & b & c & tail & [Na Ha] & [_ Hb] & [_ Hc] & Ht & ->).
  split; [destruct a; [congruence | discriminate]|].
  assert (D : forall t, forallb digit t = true -> forallb version_char t = true).
  { intros t. apply forallb_weaken. intros x Hx. unfold version_char.
    rewrite Hx. reflexivity. }
  rewrite forallb_app. cbn [forallb]. rewrite forallb_app. cbn [forallb].
  rewrite forallb_app, !D by assumption.
  destruct Ht as [-> | ->]; reflexivity.
Qed.

(** On a disk that stores what it is given, the version read back after
    the rewrite is the new one. *)
Lemma sound_write_verifies (new c cur : text) :
  new <> [] -> forallb not_dquote new = true -> no_CR new = true ->
  read_version c = Some cur ->
  read_version (requested new c) = Some new.
Proof.
  intros Ne Q N Hcur. unfold read_version in *. unfold requested.
  rewrite (universal_newlines_id
             (Re.re_sub true version_line_write (version_line new)
                (universal_newlines c))).
  2:{ eapply rewritten_no_CR;
        [apply re_sub_rewritten | exact N | apply universal_newlines_no_CR]. }
  unfold Re.re_search in *.
  destruct (Re.search_from true version_line_read [] None (universal_newlines c))
    as [m|] eqn:Sm; [|discriminate Hcur].
  destruct (search_in_sub new Ne Q (universal_newlines c)
              (S (length (universal_newlines c))) [] [] None m
              ltac:(lia) Sm) as (m' & S' & G).
  unfold search_version, sub_version in S'.
  unfold Re.re_sub. rewrite S'. exact G.
Qed.

Lemma accepted_version_verifies (version c cur : text) :
  validate_version version = true ->
  read_version c = Some cur ->
  read_version (requested version c) = Some version.
Proof.
  intros V. destruct (validate_version_chars _ V) as [Ne A].
  apply sound_write_verifies; [exact Ne | |].
  - revert A. apply forallb_weaken. intros x Hx.
    apply (version_char_plain x Hx).
  - revert A. apply forallb_weaken. intros x Hx.
    apply (version_char_plain x Hx).
Qed.

(* ------------------------------------------------------------------ *)
(** * Versions and answers *)

Lemma option_text_eqb_false a b : a <> b -> option_text_eqb a b = false.
Proof.
  destruct a as [x|], b as [y|]; simpl; try congruence.
  intros H. apply text_eqb_neq. congruence.
Qed.

Lemma option_text_eqb_true a b : option_text_eqb a b = true -> a = b.
Proof.
  destruct a as [x|], b as [y|]; simpl; try congruence.
  intros H. apply text_eqb_eq in H. congruence.
Qed.

Lemma no_backslash_digits (s : text) :
  forallb digit s = true -> no_backslash s = true.
Proof.
  unfold no_backslash. induction s as [|x s IH]; [reflexivity|].
  cbn [forallb]. intros H; apply andb_true_iff in H as [Hx Hs].
  rewrite (digit_not_backslash x Hx), IH by exact Hs. reflexivity.
Qed.

(** Accepted versions are safe to use as a replacement template. *)
Lemma validate_version_no_backslash (v : text) :
  validate_version v = true -> no_backslash v = true.
Proof.
  intros H. apply validate_version_iff in H
    as (a & b & c & tail & [_ Ha] & [_ Hb] & [_ Hc] & Ht & ->).
  unfold no_backslash.
  rewrite forallb_app. cbn [forallb]. rewrite forallb_app. cbn [forallb].
  rewrite forallb_app.
  fold (no_backslash a) (no_backslash b) (no_backslash c).
  rewrite !no_backslash_digits by assumption.
  destruct Ht as [-> | ->]; reflexivity.
Qed.

Lemma three_groups_chars (s : text) :
  three_groups s ->
  forallb (fun c => digit c || Ascii.eqb c dot) s = true.
Proof.
  assert (D : forall t, forallb digit t = true ->
              forallb (fun c => digit c || Ascii.eqb c dot) t = true).
  { induction t as [|x t IH]; [reflexivity|]. cbn [forallb].
    intros H; apply andb_true_iff in H as [Hx Ht].
    rewrite Hx, IH by exact Ht. reflexivity. }
  intros (a & b & c & [_ Ha] & [_ Hb] & [_ Hc] & ->).
  rewrite forallb_app. cbn [forallb]. rewrite forallb_app. cbn [forallb].
  rewrite !D by assumption. reflexivity.
Qed.

(** X1.  [validate_version] accepts the three-group strings and, besides them,
    exactly those followed by one newline. *)
Lemma validate_version_accepts (s : text) :
  validate_version s = true <->
  three_groups s \/ exists t, three_groups t /\ s = t ++ [LF].
Proof.
  rewrite validate_version_iff. split.
  - intros (a & b & c & tail & Ha & Hb & Hc & [-> | ->] & ->).
    + left. exists a, b, c. rewrite app_nil_r. auto.
    + right. exists (a ++ dot :: b ++ dot :: c). split.
      * exists a, b, c. auto.
      * rewrite <- !app_assoc. cbn [app]. rewrite <- !app_assoc.
        reflexivity.
  - intros [(a & b & c & Ha & Hb & Hc & ->) | (t & (a & b & c & Ha & Hb & Hc & ->) & ->)].
    + exists a, b, c, []. rewrite app_nil_r. repeat split; auto; apply Ha || apply Hb || apply Hc.
    + exists a, b, c, [LF]. repeat split; auto; try (apply Ha || apply Hb || apply Hc).
      rewrite <- !app_assoc. cbn [app]. rewrite <- !app_assoc. reflexivity.
Qed.

Lemma lower_char_y (c : ascii) :
  lower_char c = lower_y <-> c = lower_y \/ c = upper_y.
Proof.
  split.
  - destruct c as [[] [] [] [] [] [] [] []]; vm_compute; intros H;
      first [discriminate H | left; reflexivity | right; reflexivity].
  - intros [-> | ->]; reflexivity.
Qed.

Lemma lstrip_split (s : text) :
  exists l, s = l ++ lstrip s /\ forallb isspace l = true.
Proof.
  induction s as [|c s (l & E & A)]; [exists []; auto|].
  cbn [lstrip]. destruct (isspace c) eqn:Sp.
  - exists (c :: l). cbn [app forallb]. rewrite Sp, A, <- E. auto.
  - exists []. auto.
Qed.

Lemma lstrip_app (l : text) (y : ascii) (r : text) :
  forallb isspace l = true -> isspace y = false ->
  lstrip (l ++ y :: r) = y :: r.
Proof.
  intros A Hy; induction l as [|c l IH]; cbn [app lstrip forallb] in *.
  - rewrite Hy; reflexivity.
  - apply andb_true_iff in A as [Hc A]. rewrite Hc. auto.
Qed.

Lemma forallb_rev (p : ascii -> bool) (l : text) :
  forallb p (rev l) = forallb p l.
Proof.
  induction l as [|c l IH]; [reflexivity|].
  cbn [rev forallb]. rewrite forallb_app, IH. cbn [forallb].
  rewrite andb_true_r. apply andb_comm.
Qed.

(** The answers that count as yes: [y] or [Y] with any white space around
    it. *)
Lemma affirmative_iff (line : text) :
  affirmative line = true <->
  exists l y r,
    line = l ++ y :: r /\
    forallb isspace l = true /\ forallb isspace r = true /\
    (y = lower_y \/ y = upper_y).
Proof.
  unfold affirmative. rewrite text_eqb_eq. split.
  - intros H. unfold strip, rstrip, lower in H.
    destruct (lstrip_split line) as (l & El & Al).
    destruct (lstrip_split (rev (lstrip line))) as (r & Er & Ar).
    assert (L : length (lstrip (rev (lstrip line))) = 1).
    { apply (f_equal (@length ascii)) in H.
      rewrite length_map, length_rev in H. exact H. }
    destruct (lstrip (rev (lstrip line))) as [|y [|z t]];
      try discriminate L.
    cbn in H. injection H as H. apply lower_char_y in H.
    exists l, y, (rev r). repeat split; auto.
    + rewrite El at 1. f_equal.
      rewrite <- (rev_involutive (lstrip line)), Er, rev_app_distr.
      reflexivity.
    + rewrite forallb_rev; exact Ar.
  - intros (l & y & r & -> & Al & Ar & Hy).
    assert (Sy : isspace y = false) by (destruct Hy as [-> | ->]; reflexivity).
    unfold strip, rstrip. rewrite (lstrip_app l y r Al Sy).
    cbn [rev].
    rewrite (lstrip_app (rev r) y []) by (rewrite ?forallb_rev; auto).
    cbn. f_equal. apply lower_char_y; exact Hy.
Qed.

(* ------------------------------------------------------------------ *)
(** * Running the scripts symbolically *)

Ltac run :=
  cbv beta iota zeta delta
    [ret bind raise try_except when ask get modify emit file set_file
     set_dist set_stdin typing print print_info print_success print_warning
     print_error print_step sys_exit os_path_exists read_text write_text
     shutil_copy os_remove import_module input subprocess_run str_exn
     check_dependencies get_current_version update_version run_command
     restore_backup is_Exception deploy deploy_handler main run_deploy
     manifest backup dist stdin log argv has_build has_twine shell
     disk_write wording fst snd negb].

(** No event of the list is the one looked for. *)
Ltac absent H :=
  lazymatch type of H with
  | False => contradiction
  | _ = _ =>
      first [ discriminate H
            | injection H as H; vm_compute in H; discriminate H ]
  | _ \/ _ => let H1 := fresh in destruct H as [H1|H1]; absent H1
  | In _ (_ ++ _) => apply in_app_or in H; absent H
  | In _ (map _ _) =>
      apply in_map_iff in H;
      let y := fresh in destruct H as (y & H & _); absent H
  | In _ (_ :: _) => cbn [In] in H; absent H
  | In _ [] => contradiction
  end.

(** The event looked for is in the list. *)
Ltac present :=
  repeat first [ left; reflexivity | right | apply in_or_app; right ].

Ltac flatten_log := rewrite <- ?app_assoc; cbn [app].

(** The test of line 187 holds exactly for a missing and for an empty
    [dist/]. *)
Lemma no_build_output_iff (d : option (list text)) :
  no_build_output d = true <-> d = None \/ d = Some [].
Proof.
  destruct d as [[|f files]|]; cbn [no_build_output]; split;
    try (intros [H|H]; discriminate H); try discriminate; auto.
Qed.

Lemma truthy_read (c cur : text) :
  read_version c = Some cur -> truthy (Some cur) = true.
Proof.
  intros H. destruct (read_version_nonempty _ _ H) as [Hne _].
  destruct cur; [congruence | reflexivity].
Qed.

Lemma print_names_run (names : list text) (e : env) (w : world) :
  print_names names e w =
    (Ok tt,
     mkWorld (manifest w) (backup w) (dist w) (stdin w)
             (log w ++ map (fun n => Print Plain (txt "  " ++ n)) names)).
Proof.
  revert w; induction names as [|n names IH]; intros [m b d i l].
  - cbn [print_names map]. run. rewrite app_nil_r. reflexivity.
  - cbn [print_names map]. run. rewrite IH. cbn [manifest backup dist stdin log].
    rewrite <- app_assoc. reflexivity.
Qed.

(** From the start of [main] to the first prompt. *)
Ltac preflight c Hvalid Hcur :=
  let Ht := fresh "Ht" in
  let mt := fresh "mt" in
  pose proof (truthy_read _ _ Hcur) as Ht; unfold read_version in Hcur;
  run; cbn [length Nat.eqb nth]; run; rewrite Hvalid; run;
  destruct (Re.re_search true version_line_read (universal_newlines c))
    as [mt|]; [|discriminate Hcur];
  rewrite Hcur; run; rewrite Ht; run.

(** Through the rewrite of the manifest, when it verifies. *)
Ltac rewrite_manifest stored Hyes Hdisk Hgood :=
  let ms := fresh "ms" in
  rewrite Hyes; run; rewrite Hdisk; run;
  unfold read_version in Hgood;
  destruct (Re.re_search true version_line_read (universal_newlines stored))
    as [ms|]; [|discriminate Hgood];
  run; rewrite Hgood; cbn [option_text_eqb]; rewrite text_eqb_refl; run.

Ltac open_run e w :=
  destruct e as [av hb ht sh dw wd], w as [m b d i l];
  cbn [argv has_build has_twine manifest backup dist stdin disk_write shell
       log] in *;
  subst.

(** The run has ended with the new manifest or with the old one. *)
Ltac settled :=
  eexists;
  first [ left; repeat split; reflexivity
        | right; repeat split; reflexivity ].

(** The three ways a command ends; [k] continues after success. *)
Ltac on_command sh cmd k :=
  destruct (sh cmd) as [? ? ? ?|?|]; run;
  [ match goal with
    | |- context [(?rc =? 0)%Z] => destruct (rc =? 0)%Z
    end; run;
    [ k
    | match goal with
      | |- context [text_eqb ?er []] => destruct (text_eqb er [])
      end; run; settled ]
  | settled
  | settled ].

(* ------------------------------------------------------------------ *)
(** * [validate_version] *)

(** The examples of the specification. *)
Example validate_105 : validate_version (txt "1.0.5") = true.
Proof. reflexivity. Qed.
Example validate_10 : validate_version (txt "1.0") = false.
Proof. reflexivity. Qed.
Example validate_beta : validate_version (txt "1.0.5-beta") = false.
Proof. reflexivity. Qed.
Example validate_v : validate_version (txt "v1.0.5") = false.
Proof. reflexivity. Qed.
Example validate_trailing_space : validate_version (txt "1.0.5 ") = false.
Proof. reflexivity. Qed.
Example validate_two_newlines :
  validate_version (txt "1.0.5" ++ [LF; LF]) = false.
Proof. reflexivity. Qed.

(** C1.  [validate_version] accepts a version followed by a newline,
    which is not three groups of digits separated by dots: the [$] of the
    pattern also matches just before a newline that ends the string. *)
Theorem validate_version_accepts_trailing_newline :
  validate_version (txt "1.0.5" ++ [LF]) = true /\
  ~ three_groups (txt "1.0.5" ++ [LF]).
Proof.
  split; [reflexivity|].
  intros H. apply three_groups_chars in H. vm_compute in H. discriminate H.
Qed.

(* ------------------------------------------------------------------ *)
(** * [update_version] *)

(** X14.  On a disk that stores what it is given, [update_version] succeeds for
    every accepted version and every manifest with a version line; the
    verification can only fail when the disk holds something else. *)
Lemma update_version_succeeds :
  forall (e : env) (w : world) (version c cur : text),
    manifest w = Some c ->
    validate_version version = true ->
    read_version c = Some cur ->
    disk_write e (requested version c) = Written (requested version c) ->
    exists w',
      update_version version e w = (Ok true, w') /\
      manifest w' = Some (requested version c) /\ backup w' = Some c.
Proof.
  intros [av hb ht sh dw wd] [m b d i l] version c cur Hm Hv Hcur Hd.
  cbn [manifest disk_write] in *. subst m.
  pose proof (accepted_version_verifies version c cur Hv Hcur) as Hgood.
  unfold requested in Hd, Hgood |- *. unfold read_version in Hgood.
  run. rewrite Hd. run.
  destruct (Re.re_search true version_line_read
              (universal_newlines
                 (Re.re_sub true version_line_write (version_line version)
                    (universal_newlines c)))) as [ms|];
    [|discriminate Hgood].
  run. rewrite Hgood. cbn [option_text_eqb]. rewrite text_eqb_refl. run.
  eexists. repeat split; reflexivity.
Qed.

(** C2, as the spec states it, fails twice.  With two version lines in
    the manifest a successful [update_version] rewrites both, so the file
    differs from the one with only the first line rewritten.  And with
    CR LF line endings a successful [update_version] on a disk that stores
    the text as it is written leaves LF endings, so bytes outside the
    version line differ as well. *)
Lemma update_version_rewrites_later_lines_too :
  (fst (update_version (txt "1.2.4") (sample_env sample_shell sound_disk)
          (sample_world [])) = Ok true /\
   exists t : text,
     first_line_only (txt "1.2.4") sample_manifest = Some t /\
     manifest (snd (update_version (txt "1.2.4")
                      (sample_env sample_shell sound_disk) (sample_world [])))
       <> Some t) /\
  (fst (update_version (txt "1.2.4") (sample_env sample_shell sound_disk)
          (mkWorld (Some crlf_manifest) None None [] [])) = Ok true /\
   exists t : text,
     first_line_only (txt "1.2.4") crlf_manifest = Some t /\
     manifest (snd (update_version (txt "1.2.4")
                      (sample_env sample_shell sound_disk)
                      (mkWorld (Some crlf_manifest) None None [] [])))
       <> Some t).
Proof.
  split; (split; [vm_compute; reflexivity|]);
    eexists; (split; [vm_compute; reflexivity|]);
    vm_compute; discriminate.
Qed.

(** C2, amended.  For a manifest without carriage returns, on a disk that
    stores the text as it is written, a successful [update_version new]
    leaves the manifest with every version line that starts a line
    rewritten to [new], not only the first, and every other byte as it
    was; reading the version again gives [new]. *)
Theorem update_version_rewrites_every_version_line :
  forall (e : env) (w w' : world) (new c : text),
    manifest w = Some c ->
    no_CR c = true ->
    no_backslash new = true ->
    disk_write e (requested new c) = Written (requested new c) ->
    update_version new e w = (Ok true, w') ->
    exists m' : text,
      manifest w' = Some m' /\
      rewritten new None c m' /\
      read_version m' = Some new.
Proof.
  intros [av hb ht sh dw wd] [m b d i l] w' new c Hm Hc _ Hd.
  cbn [manifest disk_write] in *. subst m.
  pose proof (re_sub_rewritten new (universal_newlines c)) as R.
  rewrite (universal_newlines_id c Hc) in R at 1.
  unfold read_version. unfold requested in Hd.
  run. rewrite Hd. run.
  destruct (Re.re_search true version_line_read
              (universal_newlines
                 (Re.re_sub true version_line_write (version_line new)
                    (universal_newlines c)))) as [ms|] eqn:Sm; run.
  - destruct (option_text_eqb (Re.group1 ms) (Some new)) eqn:E; run.
    + intros H; injection H as <-. apply option_text_eqb_true in E.
      eexists. split; [reflexivity|]. split; [exact R|].
      rewrite Sm. exact E.
    + intros H; discriminate H.
  - cbn [option_text_eqb]. run. intros H; discriminate H.
Qed.

Lemma update_version_rewrites_every_version_line_witness :
  no_CR sample_manifest = true /\
  exists m' : text,
    manifest (snd (update_version (txt "1.2.4")
                     (sample_env sample_shell sound_disk) (sample_world [])))
      = Some m' /\
    rewritten (txt "1.2.4") None sample_manifest m' /\
    read_version m' = Some (txt "1.2.4").
Proof.
  split; [reflexivity|].
  apply (update_version_rewrites_every_version_line
           (sample_env sample_shell sound_disk) (sample_world [])
           (snd (update_version (txt "1.2.4")
                   (sample_env sample_shell sound_disk) (sample_world [])))
           (txt "1.2.4") sample_manifest).
  - reflexivity.
  - reflexivity.
  - reflexivity.
  - reflexivity.
  - vm_compute. reflexivity.
Defined.

(** C3.  The manifest holds a text and the disk stores a text, so that the
    read after the write returns; when the version it returns is not the
    requested one, [update_version] returns [False] with the manifest
    holding the bytes it held before the call: the copy back from the
    backup is the last thing it does. *)
Theorem update_version_failed_verification_restores :
  forall (e : env) (w : world) (new c stored : text),
    manifest w = Some c ->
    no_backslash new = true ->
    disk_write e (requested new c) = Written stored ->
    read_version stored <> Some new ->
    exists w',
      update_version new e w = (Ok false, w') /\
      manifest w' = Some c /\
      log w' = log w ++ [CopyFile Manifest Backup;
                         Print Success (txt "Backup created: pyproject.toml.backup");
                         WriteFile Manifest;
                         CopyFile Backup Manifest].
Proof.
  intros [av hb ht sh dw wd] [m b d i l] new c stored Hm _ Hd Hv.
  cbn [manifest disk_write] in *. subst m.
  unfold requested in Hd. unfold read_version in Hv.
  run. rewrite Hd. run.
  destruct (Re.re_search true version_line_read (universal_newlines stored))
    as [mt|]; run.
  - rewrite (option_text_eqb_false _ _ Hv). run.
    eexists; repeat split. flatten_log. reflexivity.
  - cbn [option_text_eqb]. run.
    eexists; repeat split. flatten_log. reflexivity.
Qed.

Lemma update_version_failed_verification_restores_witness :
  read_version [] <> Some (txt "1.2.4") /\
  exists w',
    update_version (txt "1.2.4") (sample_env sample_shell lossy_disk)
      (sample_world []) = (Ok false, w') /\
    manifest w' = Some sample_manifest /\
    log w' = log (sample_world []) ++
             [CopyFile Manifest Backup;
              Print Success (txt "Backup created: pyproject.toml.backup");
              WriteFile Manifest;
              CopyFile Backup Manifest].
Proof.
  split; [vm_compute; discriminate|].
  apply (update_version_failed_verification_restores
           (sample_env sample_shell lossy_disk) (sample_world [])
           (txt "1.2.4") sample_manifest []).
  - reflexivity.
  - reflexivity.
  - reflexivity.
  - vm_compute. discriminate.
Defined.

(* ------------------------------------------------------------------ *)
(** * Runs of [main] *)

(** C4.  A write error after the manifest was opened for writing: the file
    is left truncated, [update_version] reports the failure without
    copying the backup back, and [main] exits with code 1 without calling
    [restore_backup]. *)
Theorem write_error_is_not_rolled_back :
  let r := run_deploy (sample_env sample_shell full_disk)
                      (sample_world [Types (txt "y")]) in
  fst r = Exit 1 /\
  manifest (snd r) = Some [] /\
  backup (snd r) = Some sample_manifest /\
  In (WriteFile Manifest) (log (snd r)) /\
  ~ In (CopyFile Backup Manifest) (log (snd r)).
Proof.
  vm_compute. repeat split.
  - present.
  - intros H. absent H.
Qed.

(** C5, as the spec states it, fails: an upper-case [Y] is affirmative
    too.  Typed at the first prompt it lets the run rewrite the manifest,
    and [ y ] at the second prompt lets it upload. *)
Lemma uppercase_answer_is_affirmative :
  affirmative (txt "Y") = true /\ txt "Y" <> txt "y" /\
  let r := run_deploy (sample_env sample_shell sound_disk)
             (typing [Types (txt "Y"); Types (txt " y ")] (sample_world []))
  in
  fst r = Exit 0 /\
  manifest (snd r) <> manifest (sample_world []) /\
  In (Exec upload_command) (log (snd r)).
Proof.
  vm_compute. repeat split; try discriminate. present.
Qed.

Section Run.

(** A run that reaches the first prompt: one argument, an accepted
    version, a manifest with a version line, both tools installed. *)
Variables (e : env) (w : world) (prog version c cur : text).
Hypothesis Hargv : argv e = [prog; version].
Hypothesis Hvalid : validate_version version = true.
Hypothesis Hmanifest : manifest w = Some c.
Hypothesis Hbuild : has_build e = true.
Hypothesis Htwine : has_twine e = true.
Hypothesis Hcur : read_version c = Some cur.

(** C10.  An interrupt at the first prompt is outside the [try] statement:
    [KeyboardInterrupt] leaves [main] uncaught, the handler of lines
    239-242 does not run, and the manifest and the backup are as before. *)
Theorem interrupt_at_first_prompt_is_not_handled :
  forall rest,
    exists w' events,
      run_deploy e (typing (CtrlC :: rest) w)
        = (Uncaught KeyboardInterrupt, w') /\
      manifest w' = manifest w /\ backup w' = backup w /\
      log w' = log w ++ events /\
      ~ In (Print Warning (LF :: txt "Deployment interrupted by user")) events /\
      ~ In (CopyFile Backup Manifest) events.
Proof.
  intros rest. open_run e w.
  preflight c Hvalid Hcur.
  do 2 eexists. split; [reflexivity|]. split; [reflexivity|].
  split; [reflexivity|]. split; [flatten_log; reflexivity|].
  split; intros H; absent H.
Qed.

Lemma first_prompt_declined :
  forall line rest,
    affirmative line = false ->
    exists w',
      run_deploy e (typing (Types line :: rest) w) = (Exit 0, w') /\
      manifest w' = manifest w /\ backup w' = backup w /\ dist w' = dist w.
Proof.
  intros line rest Hno. open_run e w.
  preflight c Hvalid Hcur. rewrite Hno. run.
  eexists. repeat split; reflexivity.
Qed.

(** The operator agrees at the first prompt, and the disk stores a
    text. *)
Variables (answer1 stored : text).
Hypothesis Hyes : affirmative answer1 = true.
Hypothesis Hdisk : disk_write e (requested version c) = Written stored.

(** C9.  The disk has stored a text [stored], so the read after the write
    returns.  When the version it returns is not the requested one,
    [update_version] copies the backup back and leaves it on disk, where
    [restore_backup] would have removed it; [main] then exits with code 1
    and the backup is still there. *)
Theorem failed_verification_leaves_backup :
  forall rest,
    read_version stored <> Some version ->
    (exists wu wr,
        update_version version e w = (Ok false, wu) /\
        manifest wu = Some c /\ backup wu = Some c /\
        restore_backup e wu = (Ok tt, wr) /\
        manifest wr = Some c /\ backup wr = None) /\
    (exists w',
        run_deploy e (typing (Types answer1 :: rest) w) = (Exit 1, w') /\
        manifest w' = Some c /\ backup w' = Some c).
Proof.
  intros rest Hbad. open_run e w. unfold requested in Hdisk.
  split.
  - unfold read_version in Hbad.
    run. rewrite Hdisk. run.
    destruct (Re.re_search true version_line_read (universal_newlines stored))
      as [ms|]; run.
    + rewrite (option_text_eqb_false _ _ Hbad). run.
      do 2 eexists. repeat split; reflexivity.
    + cbn [option_text_eqb]. run.
      do 2 eexists. repeat split; reflexivity.
  - preflight c Hvalid Hcur. rewrite Hyes. run. rewrite Hdisk. run.
    unfold read_version in Hbad.
    destruct (Re.re_search true version_line_read (universal_newlines stored))
      as [ms|]; run.
    + rewrite (option_text_eqb_false _ _ Hbad). run.
      eexists. repeat split; reflexivity.
    + cbn [option_text_eqb]. run.
      eexists. repeat split; reflexivity.
Qed.

(** The rewritten manifest verifies, and cleaning succeeds. *)
Variables (out1 err1 : text) (d1 : option (list text)).
Hypothesis Hgood : read_version stored = Some version.
Hypothesis Hclean : shell e clean_command = Completed 0 out1 err1 d1.

(** C7.  The build exits with status 0 and [dist/] is missing ([None]) or
    empty ([Some []]): the manifest gets its old bytes back, the backup is
    removed, the process exits with code 1 and the upload command is never
    run. *)
Theorem empty_build_output_aborts :
  forall rest out2 err2 d2,
    shell e build_command = Completed 0 out2 err2 d2 ->
    d2 = None \/ d2 = Some [] ->
    exists w' events,
      run_deploy e (typing (Types answer1 :: rest) w) = (Exit 1, w') /\
      manifest w' = Some c /\ backup w' = None /\
      log w' = log w ++ events /\
      In (CopyFile Backup Manifest) events /\
      ~ In (Exec upload_command) events.
Proof.
  intros rest out2 err2 d2 Hb Hempty.
  apply no_build_output_iff in Hempty. open_run e w.
  unfold requested in Hdisk.
  preflight c Hvalid Hcur. rewrite_manifest stored Hyes Hdisk Hgood.
  rewrite Hclean. run. cbn [Z.eqb]. run.
  rewrite Hb. run. cbn [Z.eqb]. run. rewrite Hempty. run.
  do 2 eexists. split; [reflexivity|]. split; [reflexivity|].
  split; [reflexivity|]. split; [flatten_log; reflexivity|].
  split; [present | intros H; absent H].
Qed.

(** The build succeeds and leaves files in [dist/]. *)
Variables (out2 err2 f : text) (files : list text).
Hypothesis Hbuilt :
  shell e build_command = Completed 0 out2 err2 (Some (f :: files)).

(** From the first prompt to the second. *)
Ltac to_second_prompt :=
  unfold requested in Hdisk;
  preflight c Hvalid Hcur; rewrite_manifest stored Hyes Hdisk Hgood;
  rewrite Hclean; run; cbn [Z.eqb]; run;
  rewrite Hbuilt; run; cbn [Z.eqb no_build_output]; run;
  rewrite print_names_run; cbn [manifest backup dist stdin log]; run.

(** C6.  Declining at the second prompt: exit code 0, the backup removed,
    the manifest as rewritten (reading it gives the new version, nothing
    is copied back), [dist/] as the build left it, no upload. *)
Theorem second_prompt_declined :
  forall line rest,
    affirmative line = false ->
    exists w' events,
      run_deploy e (typing (Types answer1 :: Types line :: rest) w)
        = (Exit 0, w') /\
      backup w' = None /\
      manifest w' = Some stored /\ read_version stored = Some version /\
      dist w' = Some (f :: files) /\
      log w' = log w ++ events /\
      In (RemoveFile Backup) events /\
      ~ In (CopyFile Backup Manifest) events /\
      ~ In (Exec upload_command) events.
Proof.
  intros line rest Hno. pose proof Hgood as Hnew. open_run e w.
  to_second_prompt. rewrite Hno. run.
  do 2 eexists. split; [reflexivity|]. split; [reflexivity|].
  split; [reflexivity|]. split; [exact Hnew|]. split; [reflexivity|].
  split; [flatten_log; reflexivity|].
  split; [present | split; intros H; absent H].
Qed.

(** The upload command runs exactly when the answer at the second prompt
    is affirmative. *)
Lemma second_prompt_gates_upload :
  forall line rest,
    exists events,
      log (snd (run_deploy e (typing (Types answer1 :: Types line :: rest) w)))
        = log w ++ events /\
      (In (Exec upload_command) events <-> affirmative line = true).
Proof.
  intros line rest. open_run e w. to_second_prompt.
  destruct (affirmative line) eqn:A; run.
  - destruct (sh upload_command) as [rc out3 err3 d3|d3|]; run.
    + destruct (rc =? 0)%Z; run.
      * eexists. split; [flatten_log; reflexivity|].
        split; [reflexivity | intros _; present].
      * destruct (text_eqb err3 []); run;
          (eexists; split; [flatten_log; reflexivity|];
           split; [reflexivity | intros _; present]).
    + eexists. split; [flatten_log; reflexivity|].
      split; [reflexivity | intros _; present].
    + eexists. split; [flatten_log; reflexivity|].
      split; [reflexivity | intros _; present].
  - eexists. split; [flatten_log; reflexivity|].
    split; [intros H; absent H | discriminate].
Qed.

(** An interrupt at the second prompt is inside the [try] statement. *)
Lemma interrupt_at_second_prompt_is_rolled_back :
  forall rest,
    exists w',
      run_deploy e (typing (Types answer1 :: CtrlC :: rest) w) = (Exit 1, w') /\
      manifest w' = Some c /\ backup w' = None.
Proof.
  intros rest. open_run e w. to_second_prompt.
  eexists. repeat split; reflexivity.
Qed.

(** C5, amended.  Both prompts apply the same test to the answer: it is
    affirmative exactly when it is [y] or [Y] with any white space around
    it.  At the first prompt any other line ends the run with exit code 0
    and the manifest, the backup and [dist/] untouched; at the second
    prompt the upload command runs exactly for an affirmative line. *)
Theorem confirmation_strips_and_lowercases :
  forall line rest,
    (affirmative line = true <->
       exists l y r,
         line = l ++ y :: r /\
         forallb isspace l = true /\ forallb isspace r = true /\
         (y = lower_y \/ y = upper_y)) /\
    (affirmative line = false ->
       exists w',
         run_deploy e (typing (Types line :: rest) w) = (Exit 0, w') /\
         manifest w' = manifest w /\ backup w' = backup w /\
         dist w' = dist w) /\
    (exists events,
       log (snd (run_deploy e
                   (typing (Types answer1 :: Types line :: rest) w)))
         = log w ++ events /\
       (In (Exec upload_command) events <-> affirmative line = true)).
Proof.
  intros line rest. split; [apply affirmative_iff|].
  split; [apply first_prompt_declined | apply second_prompt_gates_upload].
Qed.

End Run.

(** X22.  Once the rewritten manifest has verified, every run ends in one of two
    ways, whatever the commands and the operator do: exit code 0 with the
    new manifest in place, or exit code 1 with the old bytes back; the
    backup is gone in both. *)
Lemma commit_or_rollback :
  forall (e : env) (w : world) (prog version c cur answer1 stored : text)
         (rest : list keyboard),
    argv e = [prog; version] ->
    validate_version version = true ->
    manifest w = Some c ->
    has_build e = true -> has_twine e = true ->
    read_version c = Some cur ->
    affirmative answer1 = true ->
    disk_write e (requested version c) = Written stored ->
    read_version stored = Some version ->
    exists w',
      (run_deploy e (typing (Types answer1 :: rest) w) = (Exit 0, w') /\
       manifest w' = Some stored /\ backup w' = None) \/
      (run_deploy e (typing (Types answer1 :: rest) w) = (Exit 1, w') /\
       manifest w' = Some c /\ backup w' = None).
Proof.
  intros e w prog version c cur answer1 stored rest
         Hargv Hvalid Hmanifest Hbuild Htwine Hcur Hyes Hdisk Hgood.
  open_run e w. unfold requested in Hdisk.
  preflight c Hvalid Hcur. rewrite_manifest stored Hyes Hdisk Hgood.
  on_command sh clean_command ltac:(
    on_command sh build_command ltac:(
      match goal with
      | |- context [no_build_output ?d] =>
          destruct d as [[|? ?]|]; cbn [no_build_output]; run
      end;
      [ settled
      | rewrite print_names_run; cbn [manifest backup dist stdin log]; run;
        destruct rest as [|[line|] rest']; run;
        [ settled
        | destruct (affirmative line); run;
          [ on_command sh upload_command ltac:(settled) | settled ]
        | settled ]
      | settled ])).
Qed.

(* ------------------------------------------------------------------ *)
(** * The theorems at the sample project *)

Ltac by_computation := vm_compute; first [reflexivity | discriminate].

Lemma interrupt_at_first_prompt_is_not_handled_witness :
  read_version sample_manifest = Some (txt "1.2.3") /\
  exists w' events,
    run_deploy (sample_env sample_shell sound_disk)
               (typing [CtrlC] (sample_world []))
      = (Uncaught KeyboardInterrupt, w') /\
    manifest w' = manifest (sample_world []) /\
    backup w' = backup (sample_world []) /\
    log w' = log (sample_world []) ++ events /\
    ~ In (Print Warning (LF :: txt "Deployment interrupted by user")) events /\
    ~ In (CopyFile Backup Manifest) events.
Proof.
  split; [by_computation|].
  apply interrupt_at_first_prompt_is_not_handled
    with (prog := txt "deploy.py") (version := txt "1.2.4")
         (c := sample_manifest) (cur := txt "1.2.3");
    by_computation.
Defined.

Lemma failed_verification_leaves_backup_witness :
  read_version [] <> Some (txt "1.2.4") /\
  (exists wu wr,
      update_version (txt "1.2.4") (sample_env sample_shell lossy_disk)
        (sample_world []) = (Ok false, wu) /\
      manifest wu = Some sample_manifest /\
      backup wu = Some sample_manifest /\
      restore_backup (sample_env sample_shell lossy_disk) wu = (Ok tt, wr) /\
      manifest wr = Some sample_manifest /\ backup wr = None) /\
  (exists w',
      run_deploy (sample_env sample_shell lossy_disk)
                 (typing [Types (txt "y")] (sample_world [])) = (Exit 1, w') /\
      manifest w' = Some sample_manifest /\
      backup w' = Some sample_manifest).
Proof.
  split; [by_computation|].
  apply failed_verification_leaves_backup
    with (prog := txt "deploy.py") (version := txt "1.2.4")
         (c := sample_manifest) (cur := txt "1.2.3") (stored := []);
    by_computation.
Defined.

Lemma empty_build_output_aborts_witness :
  (empty_dist = None \/ empty_dist = Some []) /\
  exists w' events,
    run_deploy (sample_env hollow_shell sound_disk)
               (typing [Types (txt "y")] (sample_world [])) = (Exit 1, w') /\
    manifest w' = Some sample_manifest /\ backup w' = None /\
    log w' = log (sample_world []) ++ events /\
    In (CopyFile Backup Manifest) events /\
    ~ In (Exec upload_command) events.
Proof.
  split; [right; reflexivity|].
  apply empty_build_output_aborts
    with (prog := txt "deploy.py") (version := txt "1.2.4")
         (c := sample_manifest) (cur := txt "1.2.3")
         (stored := requested (txt "1.2.4") sample_manifest)
         (out1 := []) (err1 := []) (d1 := None)
         (out2 := []) (err2 := []) (d2 := empty_dist);
    first [ by_computation | right; reflexivity ].
Defined.

(** The same run when the build leaves no [dist/] at all. *)
Example missing_build_output_aborts :
  let r := run_deploy (sample_env barren_shell sound_disk)
                      (typing [Types (txt "y")] (sample_world [])) in
  fst r = Exit 1 /\
  manifest (snd r) = Some sample_manifest /\ backup (snd r) = None /\
  executed (log (snd r)) = [clean_command; build_command].
Proof. vm_compute. repeat split. Qed.

Lemma second_prompt_declined_witness :
  affirmative (txt "n") = false /\
  exists w' events,
    run_deploy (sample_env sample_shell sound_disk)
               (typing [Types (txt "y"); Types (txt "n")] (sample_world []))
      = (Exit 0, w') /\
    backup w' = None /\
    manifest w' = Some (requested (txt "1.2.4") sample_manifest) /\
    read_version (requested (txt "1.2.4") sample_manifest)
      = Some (txt "1.2.4") /\
    dist w' = Some sample_files /\
    log w' = log (sample_world []) ++ events /\
    In (RemoveFile Backup) events /\
    ~ In (CopyFile Backup Manifest) events /\
    ~ In (Exec upload_command) events.
Proof.
  split; [reflexivity|].
  apply second_prompt_declined
    with (prog := txt "deploy.py") (version := txt "1.2.4")
         (c := sample_manifest) (cur := txt "1.2.3")
         (out1 := []) (err1 := []) (d1 := None)
         (out2 := []) (err2 := []);
    by_computation.
Defined.

Lemma confirmation_strips_and_lowercases_witness :
  affirmative (txt " Y ") = true /\
  (affirmative (txt "yes") = true <->
     exists l y r,
       txt "yes" = l ++ y :: r /\
       forallb isspace l = true /\ forallb isspace r = true /\
       (y = lower_y \/ y = upper_y)) /\
  (affirmative (txt "yes") = false ->
     exists w',
       run_deploy (sample_env sample_shell sound_disk)
                  (typing [Types (txt "yes")] (sample_world []))
         = (Exit 0, w') /\
       manifest w' = manifest (sample_world []) /\
       backup w' = backup (sample_world []) /\
       dist w' = dist (sample_world [])) /\
  (exists events,
     log (snd (run_deploy (sample_env sample_shell sound_disk)
                 (typing [Types (txt " Y "); Types (txt "yes")]
                         (sample_world []))))
       = log (sample_world []) ++ events /\
     (In (Exec upload_command) events <-> affirmative (txt "yes") = true)).
Proof.
  split; [reflexivity|].
  apply confirmation_strips_and_lowercases
    with (prog := txt "deploy.py") (version := txt "1.2.4")
         (c := sample_manifest) (cur := txt "1.2.3")
         (stored := requested (txt "1.2.4") sample_manifest)
         (out1 := []) (err1 := []) (d1 := None)
         (out2 := []) (err2 := [])
         (f := txt "demo-1.2.4.tar.gz")
         (files := [txt "demo-1.2.4-py3-none-any.whl"]);
    by_computation.
Defined.

(* ------------------------------------------------------------------ *)
(** * [run_tests.py] *)

(** C8.  The test runner returns 0 exactly when pytest is installed and
    its subprocess ends with status 0, and 1 in every other case; when
    pytest is missing the subprocess is not started. *)
Theorem run_tests_exit_code :
  forall (e : RunTests.env) (w : RunTests.world),
    (fst (RunTests.run e w) = 0%Z <->
       RunTests.has_pytest e = true /\ RunTests.pytest_returncode e = 0%Z) /\
    (fst (RunTests.run e w) <> 0%Z -> fst (RunTests.run e w) = 1%Z) /\
    (RunTests.has_pytest e = false ->
       fst (RunTests.run e w) = 1%Z /\
       RunTests.started (snd (RunTests.run e w)) = RunTests.started w) /\
    (RunTests.has_pytest e = true ->
       RunTests.started (snd (RunTests.run e w)) = true).
Proof.
  intros [hp rc] [st out]. unfold RunTests.run, RunTests.main.
  cbn [RunTests.has_pytest RunTests.pytest_returncode].
  destruct hp; [destruct (Z.eqb_spec rc 0) as [->|N]|]; cbn [fst snd];
    (split; [split; [intros H | intros [H1 H2]]
            | split; [intros H | split; intros H]]);
    auto; try discriminate; try congruence.
Qed.

(* ------------------------------------------------------------------ *)
(** * Further properties of the code *)

(* ------------------------------------------------------------------ *)
(** * What [get_current_version] finds *)

Lemma match_read_none (prev : option ascii) (s : text) :
  Re.match_here true version_line_read prev s = None <->
  ~ starts_version_line prev s.
Proof.
  rewrite match_read. split.
  - intros H. apply version_at_none.
    destruct (Re.at_bol true prev); [right|left; reflexivity].
    destruct (version_at s) as [[g r]|]; [discriminate H | reflexivity].
  - intros N. destruct (Re.at_bol true prev) eqn:B; [|reflexivity].
    destruct (version_at s) as [[g r]|] eqn:V; [|reflexivity].
    exfalso. apply N. split; [exact B|].
    apply version_at_some in V as (Ne & Q & E). exists g, r. auto.
Qed.

Lemma match_read_some (prev : option ascii) (s : text) mm g r :
  Re.match_here true version_line_read prev s = Some (mm, g, r) ->
  Re.at_bol true prev = true /\
  exists old,
    old <> [] /\ forallb not_dquote old = true /\
    s = version_line old ++ r /\ mm = version_line old /\ g = Some old.
Proof.
  rewrite match_read. destruct (Re.at_bol true prev); [|discriminate].
  destruct (version_at s) as [[old r']|] eqn:V; [|discriminate].
  intros H; injection H as <- <- <-.
  apply version_at_some in V as (Ne & Q & E).
  split; [reflexivity|]. exists old. auto.
Qed.

Lemma search_version_none (s : text) :
  forall skipped prev,
    search_version skipped prev s = None <->
    (forall p q, s = p ++ q -> ~ starts_version_line (Re.last_char prev p) q).
Proof.
  unfold search_version.
  induction s as [|x s IH]; intros skipped prev; cbn [Re.search_from].
  - rewrite match_read, version_at_nil.
    split.
    + intros _ p q E. symmetry in E. apply app_eq_nil in E as [-> ->].
      intros (_ & old & rest & _ & _ & E).
      apply (f_equal (@length ascii)) in E.
      rewrite length_app, version_line_length in E. cbn in E. lia.
    + intros _. destruct (Re.at_bol true prev); reflexivity.
  - destruct (Re.match_here true version_line_read prev (x :: s))
      as [[[mm g] r]|] eqn:M.
    + split; [discriminate|]. intros H. exfalso.
      apply (H [] (x :: s) eq_refl). cbn.
      destruct (match_read_some _ _ _ _ _ M) as (B & old & Ne & Q & E & _).
      split; [exact B|]. exists old, r. auto.
    + apply match_read_none in M. rewrite IH. split.
      * intros H [|y p] q E.
        -- cbn in E. subst q. exact M.
        -- cbn in E. injection E as <- E. rewrite last_char_cons.
           apply H. exact E.
      * intros H p q E. rewrite <- (last_char_cons prev x p).
        apply H. cbn. rewrite E. reflexivity.
Qed.

Lemma search_version_first (s : text) :
  forall skipped prev m,
    search_version skipped prev s = Some m ->
    exists pre old post,
      s = pre ++ version_line old ++ post /\
      m = Re.mkMatch (rev skipped ++ pre) (version_line old) (Some old) post /\
      old <> [] /\ forallb not_dquote old = true /\
      Re.at_bol true (Re.last_char prev pre) = true /\
      (forall p q, pre = p ++ q -> q <> [] ->
         ~ starts_version_line (Re.last_char prev p)
             (q ++ version_line old ++ post)).
Proof.
  unfold search_version.
  induction s as [|x s IH]; intros skipped prev m; cbn [Re.search_from].
  - rewrite match_read, version_at_nil.
    destruct (Re.at_bol true prev); discriminate.
  - destruct (Re.match_here true version_line_read prev (x :: s))
      as [[[mm g] r]|] eqn:M.
    + intros H; injection H as <-.
      destruct (match_read_some _ _ _ _ _ M) as (B & old & Ne & Q & E & -> & ->).
      exists [], old, r. rewrite app_nil_r. repeat split; auto.
      intros p q E' Nq. symmetry in E'. apply app_eq_nil in E' as [_ ->].
      congruence.
    + intros S. apply match_read_none in M.
      destruct (IH _ _ _ S) as (pre & old & post & E & -> & Ne & Q & B & F).
      exists (x :: pre), old, post. rewrite last_char_cons.
      repeat split; auto.
      * cbn. rewrite E. reflexivity.
      * cbn [rev]. rewrite <- app_assoc. reflexivity.
      * intros [|y p] q E' Nq.
        -- cbn in E'. subst q. cbn [app]. rewrite <- E. exact M.
        -- cbn in E'. injection E' as <- E'. rewrite last_char_cons.
           apply F; assumption.
Qed.

Lemma search_version_finds (pre : text) :
  forall skipped prev old post,
    old <> [] -> forallb not_dquote old = true ->
    Re.at_bol true (Re.last_char prev pre) = true ->
    (forall p q, pre = p ++ q -> q <> [] ->
       ~ starts_version_line (Re.last_char prev p)
           (q ++ version_line old ++ post)) ->
    search_version skipped prev (pre ++ version_line old ++ post) =
      Some (Re.mkMatch (rev skipped ++ pre) (version_line old) (Some old) post).
Proof.
  induction pre as [|x pre IH]; intros skipped prev old post Ne Q B F.
  - cbn [app]. rewrite app_nil_r. apply search_hit; assumption.
  - unfold search_version. cbn [app Re.search_from].
    assert (M : Re.match_here true version_line_read prev
                  (x :: pre ++ version_line old ++ post) = None).
    { apply match_read_none. apply (F [] (x :: pre) eq_refl). discriminate. }
    rewrite M. fold (search_version (x :: skipped) (Some x)
                       (pre ++ version_line old ++ post)).
    rewrite IH; auto.
    + cbn [rev]. rewrite <- app_assoc. reflexivity.
    + rewrite <- (last_char_cons prev x pre). exact B.
    + intros p q E Nq. rewrite <- (last_char_cons prev x p).
      apply F; [cbn; rewrite E; reflexivity | exact Nq].
Qed.

(** X2.  [get_current_version] reads the value of the first version line:
    [read_version b] is [old] exactly when the text splits into a part in
    which no version line starts, the line of [old] at the start of a
    line, and a rest. *)
Theorem read_version_first_version_line :
  forall (b old : text),
    read_version b = Some old <->
    exists pre post,
      universal_newlines b = pre ++ version_line old ++ post /\
      old <> [] /\ forallb not_dquote old = true /\
      Re.at_bol true (Re.last_char None pre) = true /\
      (forall p q, pre = p ++ q -> q <> [] ->
         ~ starts_version_line (Re.last_char None p)
             (q ++ version_line old ++ post)).
Proof.
  intros b old. unfold read_version, Re.re_search.
  fold (search_version [] None (universal_newlines b)). split.
  - destruct (search_version [] None (universal_newlines b)) as [m|] eqn:S;
      [|discriminate].
    destruct (search_version_first _ _ _ _ S)
      as (pre & o & post & E & -> & Ne & Q & B & F).
    cbn [Re.group1]. intros H; injection H as ->.
    exists pre, post. auto.
  - intros (pre & post & E & Ne & Q & B & F).
    rewrite E, (search_version_finds pre [] None old post Ne Q B F).
    reflexivity.
Qed.

(** X3.  [get_current_version] finds nothing exactly when no version line
    starts at the beginning of any line of the text. *)
Theorem read_version_none :
  forall (b : text),
    read_version b = None <->
    (forall p q, universal_newlines b = p ++ q ->
       ~ starts_version_line (Re.last_char None p) q).
Proof.
  intros b. rewrite <- search_version_none with (skipped := []).
  unfold read_version, Re.re_search.
  fold (search_version [] None (universal_newlines b)).
  destruct (search_version [] None (universal_newlines b)) as [m|] eqn:S;
    [|tauto].
  destruct (search_version_first _ _ _ _ S) as (pre & o & post & _ & -> & _).
  cbn [Re.group1]. split; discriminate.
Qed.

(* ------------------------------------------------------------------ *)
(** * The helpers of [deploy.py] on their own *)

(** X4.  [get_current_version] changes no file.  On a manifest that holds
    a text it returns what [read_version] finds and prints nothing;
    without a manifest it prints the error and returns [None]; on a
    manifest whose bytes do not decode it raises [UnicodeDecodeError],
    which the [except FileNotFoundError] clause of line 58 does not
    catch. *)
Theorem get_current_version_outcomes :
  forall (e : env) (w : world),
    exists w',
      get_current_version e w =
        (match manifest w with
         | Some (Text t) => Ok (read_version t)
         | Some (Undecodable _) => Raise UnicodeDecodeError
         | None => Ok None
         end, w') /\
      manifest w' = manifest w /\ backup w' = backup w /\
      dist w' = dist w /\ stdin w' = stdin w /\
      log w' = log w ++
        match manifest w with
        | Some _ => []
        | None =>
            [Print Error (txt "pyproject.toml not found in current directory!")]
        end.
Proof.
  intros e [[[c|bytes]|] b d i l]; unfold read_version; run.
  - destruct (Re.re_search true version_line_read (universal_newlines c));
      eexists; repeat split; rewrite app_nil_r; reflexivity.
  - eexists; repeat split; rewrite app_nil_r; reflexivity.
  - eexists; repeat split; reflexivity.
Qed.

(** X7.  [restore_backup] is idempotent: after it there is no backup, the
    manifest holds what the backup held (or is untouched when there was
    none), and a second call changes nothing at all. *)
Theorem restore_backup_idempotent :
  forall (e : env) (w : world),
    exists w1,
      restore_backup e w = (Ok tt, w1) /\
      backup w1 = None /\
      manifest w1 = match backup w with
                    | Some b => Some b
                    | None => manifest w
                    end /\
      (backup w = None -> w1 = w) /\
      restore_backup e w1 = (Ok tt, w1).
Proof.
  intros e [m [b|] d i l]; run; eexists; repeat split; try reflexivity.
  discriminate.
Qed.

(** X8.  Whatever the disk does with the write, [update_version] returns
    normally, the backup holds the bytes the manifest had, and
    [restore_backup] then puts them back and removes the backup. *)
Theorem restore_backup_undoes_update_version :
  forall (e : env) (w : world) (new c : text),
    manifest w = Some c ->
    exists r wu wr,
      update_version new e w = (Ok r, wu) /\
      backup wu = Some c /\
      restore_backup e wu = (Ok tt, wr) /\
      manifest wr = Some c /\ backup wr = None /\
      dist wr = dist w /\ stdin wr = stdin w.
Proof.
  intros [av hb ht sh dw wd] [m b d i l] new c Hm.
  cbn [manifest] in Hm. subst m. run.
  destruct (dw (Re.re_sub true version_line_write (version_line new)
                  (universal_newlines c))) as [[stored|bytes]|stored]; run.
  - destruct (Re.re_search true version_line_read (universal_newlines stored))
      as [ms|]; run.
    + destruct (option_text_eqb (Re.group1 ms) (Some new)); run;
        do 3 eexists; repeat split; reflexivity.
    + cbn [option_text_eqb]. run. do 3 eexists; repeat split; reflexivity.
  - do 3 eexists; repeat split; reflexivity.
  - do 3 eexists; repeat split; reflexivity.
Qed.

(** X9.  Without a manifest [update_version] returns [False] and creates
    nothing: copying to the backup fails first, the error of
    [shutil.copy] is printed, and neither file is written. *)
Theorem update_version_without_manifest :
  forall (e : env) (w : world) (new : text),
    manifest w = None ->
    exists w',
      update_version new e w = (Ok false, w') /\
      manifest w' = None /\ backup w' = backup w /\
      log w' = log w ++
        [Print Error (txt "Failed to update version: [Errno 2] No such file or directory: 'pyproject.toml'")].
Proof.
  intros e [m b d i l] new Hm. cbn [manifest] in Hm. subst m. run.
  eexists; repeat split; reflexivity.
Qed.



(** X27.  The disk has stored bytes that do not decode, as after a write
    that stopped in the middle of a character: the read after the write
    raises [UnicodeDecodeError], which passes the [except] clause of
    [get_current_version] and is caught at line 94.  [update_version]
    prints the error and returns [False] without copying the backup back:
    the manifest is left as stored and the original is in the backup. *)
Theorem undecodable_write_is_not_restored :
  forall (e : env) (w : world) (new c : text) (bytes : list ascii),
    manifest w = Some c ->
    no_backslash new = true ->
    disk_write e (requested new c) = Written (Undecodable bytes) ->
    exists w',
      update_version new e w = (Ok false, w') /\
      manifest w' = Some (Undecodable bytes) /\ backup w' = Some c /\
      log w' = log w ++
        [CopyFile Manifest Backup;
         Print Success (txt "Backup created: pyproject.toml.backup");
         WriteFile Manifest;
         Print Error (txt "Failed to update version: "
                      ++ wording e UnicodeDecodeError)].
Proof.
  intros [av hb ht sh dw wd] [m b d i l] new c bytes Hm _ Hd.
  cbn [manifest disk_write] in *. subst m. unfold requested in Hd.
  run. rewrite Hd. run.
  eexists. repeat split. flatten_log. reflexivity.
Qed.

Lemma undecodable_write_is_not_restored_witness :
  no_backslash (txt "1.2.4") = true /\
  exists w',
    update_version (txt "1.2.4") (sample_env sample_shell tearing_disk)
      (sample_world []) = (Ok false, w') /\
    manifest w' = Some (Undecodable torn_bytes) /\
    backup w' = Some sample_manifest /\
    log w' = log (sample_world []) ++
      [CopyFile Manifest Backup;
       Print Success (txt "Backup created: pyproject.toml.backup");
       WriteFile Manifest;
       Print Error (txt "Failed to update version: "
                    ++ wording (sample_env sample_shell tearing_disk)
                         UnicodeDecodeError)].
Proof.
  split; [reflexivity|].
  apply undecodable_write_is_not_restored with (c := sample_manifest);
    reflexivity.
Defined.

Lemma restore_backup_undoes_update_version_witness :
  manifest (sample_world []) = Some sample_manifest /\
  exists r wu wr,
    update_version (txt "1.2.4") (sample_env sample_shell full_disk)
      (sample_world []) = (Ok r, wu) /\
    backup wu = Some sample_manifest /\
    restore_backup (sample_env sample_shell full_disk) wu = (Ok tt, wr) /\
    manifest wr = Some sample_manifest /\ backup wr = None /\
    dist wr = dist (sample_world []) /\ stdin wr = stdin (sample_world []).
Proof.
  split; [reflexivity|].
  apply restore_backup_undoes_update_version. reflexivity.
Defined.

Lemma update_version_without_manifest_witness :
  manifest (mkWorld None None None [] []) = None /\
  exists w',
    update_version (txt "1.2.4") (sample_env sample_shell sound_disk)
      (mkWorld None None None [] []) = (Ok false, w') /\
    manifest w' = None /\ backup w' = backup (mkWorld None None None [] []) /\
    log w' = log (mkWorld None None None [] []) ++
      [Print Error (txt "Failed to update version: [Errno 2] No such file or directory: 'pyproject.toml'")].
Proof.
  split; [reflexivity|].
  apply update_version_without_manifest. reflexivity.
Defined.

(* ------------------------------------------------------------------ *)
(** * The rewrite, once more *)

Lemma universal_newlines_twice (b : text) :
  universal_newlines (universal_newlines b) = universal_newlines b.
Proof. apply universal_newlines_id, universal_newlines_no_CR. Qed.

(** Where nothing is found nothing is replaced. *)
Lemma sub_version_without_line (new : text) (s : text) :
  forall fuel skipped prev,
    length s < fuel ->
    search_version skipped prev s = None ->
    sub_version new fuel prev s = s.
Proof.
  unfold sub_version, search_version.
  induction s as [|x s IH]; intros [|fuel] skipped prev L; try (cbn in L; lia);
    cbn [Re.sub_from Re.search_from]; rewrite match_read, match_write.
  - rewrite version_at_nil. destruct (Re.at_bol true prev); reflexivity.
  - destruct (Re.at_bol true prev).
    + destruct (version_at (x :: s)) as [[g r]|]; [discriminate|].
      intros S. f_equal. apply (IH fuel (x :: skipped)); [cbn in L; lia | exact S].
    + intros S. f_equal. apply (IH fuel (x :: skipped)); [cbn in L; lia | exact S].
Qed.

Lemma requested_without_line (new b : text) :
  read_version b = None -> requested new b = universal_newlines b.
Proof.
  unfold read_version, requested, Re.re_search, Re.re_sub. intros H.
  apply (sub_version_without_line new (universal_newlines b)
           (S (length (universal_newlines b))) [] None); [lia|].
  unfold search_version.
  destruct (Re.search_from true version_line_read [] None (universal_newlines b))
    as [m|] eqn:S; [|reflexivity].
  destruct (search_from_version _ _ _ _ S) as (o & G & _).
  rewrite G in H. discriminate H.
Qed.

(** X11.  A manifest without a version line: [update_version] writes the
    text back as it read it, finds no version in it, copies the backup
    over it and returns [False]; the manifest has its bytes again. *)
Theorem update_version_without_version_line :
  forall (e : env) (w : world) (new c : text),
    manifest w = Some c ->
    read_version c = None ->
    disk_write e (universal_newlines c) = Written (universal_newlines c) ->
    requested new c = universal_newlines c /\
    exists w',
      update_version new e w = (Ok false, w') /\
      manifest w' = Some c /\ backup w' = Some c.
Proof.
  intros [av hb ht sh dw wd] [m b d i l] new c Hm Hn Hd.
  cbn [manifest disk_write] in *. subst m.
  pose proof (requested_without_line new c Hn) as R.
  split; [exact R|].
  unfold requested in R. unfold read_version in Hn.
  run. rewrite R, Hd. run. rewrite universal_newlines_twice.
  destruct (Re.re_search true version_line_read (universal_newlines c))
    as [mt|]; run.
  - rewrite Hn. cbn [option_text_eqb]. run.
    eexists; repeat split; reflexivity.
  - cbn [option_text_eqb]. run. eexists; repeat split; reflexivity.
Qed.

Lemma update_version_without_version_line_witness :
  read_version (txt "[project]" ++ [CR; LF]) = None /\
  requested (txt "1.2.4") (txt "[project]" ++ [CR; LF])
    = universal_newlines (txt "[project]" ++ [CR; LF]) /\
  exists w',
    update_version (txt "1.2.4") (sample_env sample_shell sound_disk)
      (mkWorld (Some (txt "[project]" ++ [CR; LF])) None None [] [])
      = (Ok false, w') /\
    manifest w' = Some (txt "[project]" ++ [CR; LF]) /\
    backup w' = Some (txt "[project]" ++ [CR; LF]).
Proof.
  split; [reflexivity|].
  apply update_version_without_version_line; reflexivity.
Defined.

Lemma sub_from_hit (repl : text) fuel prev s g r :
  Re.at_bol true prev = true ->
  version_at s = Some (g, r) ->
  Re.sub_from (S fuel) true version_line_write repl prev s =
    repl ++ Re.sub_from fuel true version_line_write repl (Some dquote) r.
Proof.
  intros B V. cbn [Re.sub_from]. rewrite match_write, B, V.
  pose proof (version_line_length g) as Lg.
  destruct (version_line g) as [|v0 vl] eqn:EV; [cbn in Lg; lia|].
  rewrite <- EV, version_line_last. reflexivity.
Qed.

(** A rewritten text is the text itself, or they part at a version
    line. *)
Lemma rewritten_shape (new : text) prev s s' :
  rewritten new prev s s' ->
  s' = s \/
  exists pre old rest rest',
    s = pre ++ version_line old ++ rest /\
    s' = pre ++ version_line new ++ rest'.
Proof.
  intros R.
  induction R as [prev|prev old rest rest' B Ne Q R IH|prev c s s' N R IH].
  - left; reflexivity.
  - right. exists [], old, rest, rest'. auto.
  - destruct IH as [->|(pre & old & rest & rest' & -> & ->)].
    + left; reflexivity.
    + right. exists (c :: pre), old, rest, rest'. auto.
Qed.

Section Again.

Variable new : text.
Hypothesis new_nonempty : new <> [].
Hypothesis new_unquoted : forallb not_dquote new = true.

(** In a rewritten text every version line is the new one, so rewriting
    it again changes nothing. *)
Lemma sub_version_fixpoint prev s s' :
  rewritten new prev s s' ->
  forall fuel, length s' < fuel -> sub_version new fuel prev s' = s'.
Proof.
  unfold sub_version. intros R.
  induction R as [prev|prev old rest rest' B Ne Q R IH|prev c s s' N R IH];
    intros [|fuel] L; try (cbn in L; lia).
  - cbn [Re.sub_from]. rewrite match_write, version_at_nil.
    destruct (Re.at_bol true prev); reflexivity.
  - rewrite (sub_from_hit (version_line new) fuel prev
               (version_line new ++ rest') new rest' B)
      by (apply version_at_some; auto).
    f_equal. apply IH.
    rewrite length_app, version_line_length in L. lia.
  - cbn [Re.sub_from].
    assert (M : Re.match_here true version_line_write prev (c :: s') = None).
    { rewrite match_write.
      destruct (Re.at_bol true prev) eqn:B; [|reflexivity].
      assert (V : version_at (c :: s) = None).
      { destruct (version_at (c :: s)) as [[g r]|] eqn:V; [|reflexivity].
        exfalso. apply N. split; [exact B|].
        apply version_at_some in V as (Ne & Q & E). exists g, r. auto. }
      destruct (rewritten_shape _ _ _ _ R) as [->|(pre & old & rest & rest' & -> & ->)].
      - rewrite V. reflexivity.
      - rewrite version_line_split in V. rewrite version_line_split.
        assert (Lu : 12 <= length (c :: pre ++ version_key ++ [dquote]))
          by (cbn [length]; rewrite length_app; cbn; lia).
        assert (Eu : exists u0,
                   c :: pre ++ version_key ++ [dquote] = u0 ++ [dquote])
          by (exists (c :: pre ++ version_key);
              cbn [app]; rewrite <- app_assoc; reflexivity).
        rewrite (version_at_prefix _ _ (new ++ dquote :: rest') Lu Eu V).
        reflexivity. }
    rewrite M. f_equal. apply IH. cbn in L. lia.
Qed.

End Again.

(** X13.  Rewriting is idempotent: for a new value without backslash,
    which as a replacement template stands for itself, asking for the same
    version a second time asks the disk to store what is already there. *)
Theorem requested_idempotent :
  forall (new b : text),
    new <> [] -> forallb not_dquote new = true -> no_CR new = true ->
    no_backslash new = true ->
    requested new (requested new b) = requested new b.
Proof.
  intros new b Ne Q N _.
  pose proof (re_sub_rewritten new (universal_newlines b)) as R.
  unfold requested at 1.
  rewrite (universal_newlines_id (requested new b)).
  2:{ unfold requested. eapply rewritten_no_CR;
        [exact R | exact N | apply universal_newlines_no_CR]. }
  unfold requested, Re.re_sub.
  apply (sub_version_fixpoint new Ne Q _ _ _ R
           (S (length (Re.sub_from (S (length (universal_newlines b))) true
                         version_line_write (version_line new) None
                         (universal_newlines b))))).
  unfold Re.re_sub. lia.
Qed.

Lemma requested_idempotent_witness :
  txt "1.2.4" <> [] /\
  requested (txt "1.2.4") (requested (txt "1.2.4") sample_manifest)
    = requested (txt "1.2.4") sample_manifest.
Proof.
  split; [discriminate|].
  apply requested_idempotent;
    [discriminate | reflexivity | reflexivity | reflexivity].
Defined.

Lemma update_version_succeeds_witness :
  validate_version (txt "1.2.4") = true /\
  exists w',
    update_version (txt "1.2.4") (sample_env sample_shell sound_disk)
      (sample_world []) = (Ok true, w') /\
    manifest w' = Some (requested (txt "1.2.4") sample_manifest) /\
    backup w' = Some sample_manifest.
Proof.
  split; [reflexivity|].
  apply update_version_succeeds with (cur := txt "1.2.3");
    [reflexivity | reflexivity | vm_compute; reflexivity | reflexivity].
Defined.

(* ------------------------------------------------------------------ *)
(** * The paths of [main] *)

Lemma executed_app (a b : list event) :
  executed (a ++ b) = executed a ++ executed b.
Proof.
  induction a as [|ev a IH]; [reflexivity|].
  destruct ev; cbn [app executed]; rewrite IH; reflexivity.
Qed.

Lemma executed_names (names : list text) :
  executed (map (fun n => Print Plain (txt "  " ++ n)) names) = [].
Proof. induction names as [|n names IH]; [reflexivity | exact IH]. Qed.

(** The commands of an explicit list of events. *)
Ltac commands :=
  cbn [executed app]; rewrite ?executed_app, ?executed_names;
  cbn [executed app]; reflexivity.

Section Paths.

Variables (e : env) (w : world) (prog version c cur : text).
Hypothesis Hargv : argv e = [prog; version].
Hypothesis Hvalid : validate_version version = true.
Hypothesis Hmanifest : manifest w = Some c.
Hypothesis Hbuild : has_build e = true.
Hypothesis Htwine : has_twine e = true.
Hypothesis Hcur : read_version c = Some cur.

(** X16.  End of input at the first prompt: [EOFError] leaves [main]
    uncaught, before anything was changed. *)
Theorem end_of_input_at_first_prompt :
  exists w' events,
    run_deploy e (typing [] w) = (Uncaught EOFError, w') /\
    manifest w' = manifest w /\ backup w' = backup w /\ dist w' = dist w /\
    log w' = log w ++ events /\ forallb quiet events = true.
Proof.
  open_run e w. preflight c Hvalid Hcur.
  do 2 eexists. split; [reflexivity|]. split; [reflexivity|].
  split; [reflexivity|]. split; [reflexivity|].
  split; [flatten_log; reflexivity | reflexivity].
Qed.

Variables (answer1 stored : text).
Hypothesis Hyes : affirmative answer1 = true.
Hypothesis Hdisk : disk_write e (requested version c) = Written stored.
Hypothesis Hgood : read_version stored = Some version.

(** X17.  Cleaning does not succeed (non-zero status, interrupt, or the
    shell cannot start): the manifest gets its bytes back, the backup is
    removed, the exit code is 1 and no other command is run. *)
Theorem failed_clean_is_rolled_back :
  forall rest,
    succeeded (shell e clean_command) = false ->
    exists w' events,
      run_deploy e (typing (Types answer1 :: rest) w) = (Exit 1, w') /\
      manifest w' = Some c /\ backup w' = None /\
      dist w' = dist_left (shell e clean_command) (dist w) /\
      log w' = log w ++ events /\
      executed events = [clean_command].
Proof.
  intros rest Hfail. open_run e w. unfold requested in Hdisk.
  preflight c Hvalid Hcur. rewrite_manifest stored Hyes Hdisk Hgood.
  destruct (sh clean_command) as [rc o er dd|dd|]; cbn [succeeded] in Hfail;
    run; [rewrite Hfail; run; destruct (text_eqb er []); run | |];
    (do 2 eexists; split; [reflexivity|]; split; [reflexivity|];
     split; [reflexivity|]; split; [reflexivity|];
     split; [flatten_log; reflexivity | commands]).
Qed.

Variables (out1 err1 : text) (d1 : option (list text)).
Hypothesis Hclean : shell e clean_command = Completed 0 out1 err1 d1.

(** X18.  The build does not succeed: the manifest gets its bytes back, the
    backup is removed, the exit code is 1, and the upload is not run. *)
Theorem failed_build_is_rolled_back :
  forall rest,
    succeeded (shell e build_command) = false ->
    exists w' events,
      run_deploy e (typing (Types answer1 :: rest) w) = (Exit 1, w') /\
      manifest w' = Some c /\ backup w' = None /\
      dist w' = dist_left (shell e build_command) d1 /\
      log w' = log w ++ events /\
      executed events = [clean_command; build_command].
Proof.
  intros rest Hfail. open_run e w. unfold requested in Hdisk.
  preflight c Hvalid Hcur. rewrite_manifest stored Hyes Hdisk Hgood.
  rewrite Hclean. run. cbn [Z.eqb]. run.
  destruct (sh build_command) as [rc o er dd|dd|]; cbn [succeeded] in Hfail;
    run; [rewrite Hfail; run; destruct (text_eqb er []); run | |];
    (do 2 eexists; split; [reflexivity|]; split; [reflexivity|];
     split; [reflexivity|]; split; [reflexivity|];
     split; [flatten_log; reflexivity | commands]).
Qed.

Variables (out2 err2 f : text) (files : list text).
Hypothesis Hbuilt :
  shell e build_command = Completed 0 out2 err2 (Some (f :: files)).

Ltac to_second_prompt :=
  unfold requested in Hdisk;
  preflight c Hvalid Hcur; rewrite_manifest stored Hyes Hdisk Hgood;
  rewrite Hclean; run; cbn [Z.eqb]; run;
  rewrite Hbuilt; run; cbn [Z.eqb no_build_output]; run;
  rewrite print_names_run; cbn [manifest backup dist stdin log]; run.

(** X19.  An interrupt or the end of input at the second prompt is inside
    the [try] statement: the manifest gets its bytes back, the backup is
    removed, the exit code is 1, the built files stay and nothing is
    uploaded. *)
Theorem no_answer_at_second_prompt_is_rolled_back :
  forall keys,
    keys = [] \/ (exists rest, keys = CtrlC :: rest) ->
    exists w' events,
      run_deploy e (typing (Types answer1 :: keys) w) = (Exit 1, w') /\
      manifest w' = Some c /\ backup w' = None /\
      dist w' = Some (f :: files) /\
      log w' = log w ++ events /\
      executed events = [clean_command; build_command].
Proof.
  intros keys [->|[rest ->]]; open_run e w; to_second_prompt;
    (do 2 eexists; split; [reflexivity|]; split; [reflexivity|];
     split; [reflexivity|]; split; [reflexivity|];
     split; [flatten_log; reflexivity | commands]).
Qed.

Variable answer2 : text.
Hypothesis Hyes2 : affirmative answer2 = true.

(** X20.  A complete deployment: with both answers affirmative and a
    successful upload the run ends with exit code 0, the rewritten
    manifest in place and the backup removed; it ran the three commands
    once each, in the order clean, build, upload, and copied nothing
    back. *)
Theorem deployment_succeeds :
  forall rest out3 err3 d3,
    shell e upload_command = Completed 0 out3 err3 d3 ->
    exists w' events,
      run_deploy e (typing (Types answer1 :: Types answer2 :: rest) w)
        = (Exit 0, w') /\
      manifest w' = Some stored /\ backup w' = None /\
      dist w' = d3 /\ stdin w' = rest /\
      log w' = log w ++ events /\
      executed events = [clean_command; build_command; upload_command] /\
      ~ In (CopyFile Backup Manifest) events.
Proof.
  intros rest out3 err3 d3 Hup. open_run e w. to_second_prompt.
  rewrite Hyes2. run. rewrite Hup. run. cbn [Z.eqb]. run.
  do 2 eexists. split; [reflexivity|]. split; [reflexivity|].
  split; [reflexivity|]. split; [reflexivity|]. split; [reflexivity|].
  split; [flatten_log; reflexivity|].
  split; [commands | intros H; absent H].
Qed.

(** X21.  The upload does not succeed: the manifest gets its bytes back,
    the backup is removed, the exit code is 1; the built files are left
    as the upload command left them. *)
Theorem failed_upload_is_rolled_back :
  forall rest,
    succeeded (shell e upload_command) = false ->
    exists w' events,
      run_deploy e (typing (Types answer1 :: Types answer2 :: rest) w)
        = (Exit 1, w') /\
      manifest w' = Some c /\ backup w' = None /\
      dist w' = dist_left (shell e upload_command) (Some (f :: files)) /\
      log w' = log w ++ events /\
      executed events = [clean_command; build_command; upload_command].
Proof.
  intros rest Hfail. open_run e w. to_second_prompt.
  rewrite Hyes2. run.
  destruct (sh upload_command) as [rc o er dd|dd|]; cbn [succeeded] in Hfail;
    run; [rewrite Hfail; run; destruct (text_eqb er []); run | |];
    (do 2 eexists; split; [reflexivity|]; split; [reflexivity|];
     split; [reflexivity|]; split; [reflexivity|];
     split; [flatten_log; reflexivity | commands]).
Qed.

End Paths.

(* ------------------------------------------------------------------ *)
(** * Every run of [main] *)

(** Every way a command can end; [k] continues after success, [leaf]
    closes a finished run. *)
Ltac each_command sh cmd k leaf :=
  destruct (sh cmd) as [? ? ? ?|?|] eqn:?; run;
  [ match goal with
    | |- context [(?rc =? 0)%Z] => destruct (rc =? 0)%Z eqn:?
    end; run;
    [ k
    | match goal with
      | |- context [text_eqb ?er []] => destruct (text_eqb er [])
      end; run; leaf ]
  | leaf
  | leaf ].

(** Every run of [main], case by case in the order of the code. *)
Ltac every_run e w leaf :=
  destruct e as [av hb ht sh dw wd], w as [m b d i l]; run;
  destruct (length av =? 2) eqn:?; run; [|leaf];
  destruct (validate_version (nth 1 av [])) eqn:?; run; [|leaf];
  destruct m as [held|]; run; [|leaf];
  destruct hb; run; [|leaf];
  destruct ht; run; [|leaf];
  destruct held as [c|undecodable]; run; [|leaf];
  destruct (Re.re_search true version_line_read (universal_newlines c))
    as [mt|] eqn:?; run; [|cbn [truthy]; run; leaf];
  destruct (Re.group1 mt) as [[|g0 g]|] eqn:?; cbn [truthy]; run;
    [leaf | | leaf];
  destruct i as [|[line|] rest]; run; [leaf | | leaf];
  destruct (affirmative line) eqn:?; run; [|leaf];
  destruct (dw (Re.re_sub true version_line_write
                  (version_line (nth 1 av [])) (universal_newlines c)))
    as [[stored|undecodable]|stored] eqn:?; run; [|leaf|leaf];
  destruct (Re.re_search true version_line_read (universal_newlines stored))
    as [ms|] eqn:?; run; [|cbn [option_text_eqb]; run; leaf];
  destruct (option_text_eqb (Re.group1 ms) (Some (nth 1 av []))) eqn:?; run;
    [|leaf];
  each_command sh clean_command ltac:(
    each_command sh build_command ltac:(
      match goal with
      | |- context [no_build_output ?dd] =>
          destruct dd as [[|? ?]|]; cbn [no_build_output]; run
      end;
      [ leaf
      | rewrite print_names_run; cbn [manifest backup dist stdin log]; run;
        destruct rest as [|[line2|] rest2]; run;
        [ leaf
        | destruct (affirmative line2) eqn:?; run;
          [ each_command sh upload_command ltac:(leaf) leaf | leaf ]
        | leaf ]
      | leaf ]) leaf) leaf.


(** X24.  Nothing happens without the first confirmation: unless the first
    line typed is affirmative, the run leaves the manifest, the backup and
    [dist/] as they were and does nothing but print and ask. *)
Theorem no_confirmation_no_change :
  forall (e : env) (w : world),
    (forall line rest, stdin w = Types line :: rest ->
                       affirmative line = false) ->
    exists t w' events,
      run_deploy e w = (t, w') /\
      manifest w' = manifest w /\ backup w' = backup w /\
      dist w' = dist w /\
      log w' = log w ++ events /\ forallb quiet events = true.
Proof.
  intros e w H.
  every_run e w ltac:(
    cbn [stdin] in H;
    first
      [ do 3 eexists; split; [reflexivity|]; split; [reflexivity|];
        split; [reflexivity|]; split; [reflexivity|];
        split; [flatten_log; reflexivity | reflexivity]
      | exfalso; specialize (H _ _ eq_refl); congruence ]).
Qed.

(** X25.  Nothing is uploaded without both confirmations: if the upload
    command is among the events of a run, the first two lines typed were
    both affirmative. *)
Theorem upload_requires_two_confirmations :
  forall (e : env) (w : world),
    exists t w' events,
      run_deploy e w = (t, w') /\
      log w' = log w ++ events /\
      (In (Exec upload_command) events ->
       exists line1 line2 rest,
         stdin w = Types line1 :: Types line2 :: rest /\
         affirmative line1 = true /\ affirmative line2 = true).
Proof.
  intros e w.
  every_run e w ltac:(
    do 3 eexists; split; [reflexivity|];
    split; [flatten_log; reflexivity|];
    let U := fresh "U" in
    intros U;
    first [ absent U
          | do 3 eexists; split; [reflexivity|]; split; assumption ]).
Qed.

(** X26.  The bytes of the manifest are never lost: after every run they
    are in the manifest or in the backup, unless the run ended with exit
    code 0 and the manifest reads as the requested version. *)
Theorem original_never_lost :
  forall (e : env) (w : world) (c : text),
    manifest w = Some c ->
    exists t w',
      run_deploy e w = (t, w') /\
      (manifest w' = Some c \/ backup w' = Some c \/
       (t = Exit 0 /\ backup w' = None /\
        exists stored,
          manifest w' = Some stored /\
          read_version stored = Some (nth 1 (argv e) []))).
Proof.
  intros e w c0 Hm.
  every_run e w ltac:(
    cbn [manifest] in Hm;
    do 2 eexists; split; [reflexivity|];
    cbn [manifest backup argv];
    first
      [ left; exact Hm
      | right; left; exact Hm
      | right; right; split; [reflexivity|]; split; [reflexivity|];
        eexists; split; [reflexivity|];
        unfold read_version;
        match goal with
        | S : Re.re_search true version_line_read (universal_newlines ?s)
                = Some _ |- context [universal_newlines ?s] =>
            rewrite S
        end;
        apply option_text_eqb_true; assumption ]).
Qed.

(** Decide [preflight] from the cases taken so far. *)
Ltac decide_preflight :=
  unfold preflight, read_version;
  cbn [argv manifest has_build has_twine];
  repeat match goal with
         | E : ?x = _ |- context [?x] => rewrite E
         end;
  cbn [andb truthy Re.group1];
  try match goal with
      | |- context [match ?held with Text _ => _ | Undecodable _ => _ end] =>
          is_var held; destruct held
      end.

(** X15.  The five checks before the first prompt, for a manifest that is
    absent or a file that can be opened: the question is asked exactly
    when all of them pass, the last one on a manifest that holds a text.
    When one fails the run has only printed, with every file and the input
    as they were, and it ends with exit code 1, or, on a manifest whose
    bytes do not decode, with the uncaught [UnicodeDecodeError] of the
    read at line 145. *)
Theorem preflight_gates_the_run :
  forall (e : env) (w : world),
    exists t w' events,
      run_deploy e w = (t, w') /\
      log w' = log w ++ events /\
      (In (first_question (nth 1 (argv e) [])) events
         <-> preflight e w = true) /\
      (preflight e w = false ->
         (t = Exit 1 \/
          (t = Uncaught UnicodeDecodeError /\
           exists bytes, manifest w = Some (Undecodable bytes))) /\
         forallb is_print events = true /\
         manifest w' = manifest w /\ backup w' = backup w /\
         dist w' = dist w /\ stdin w' = stdin w).
Proof.
  intros e w.
  every_run e w ltac:(
    do 3 eexists; split; [reflexivity|];
    split; [flatten_log; reflexivity|];
    decide_preflight; unfold first_question; cbn [argv];
    (split;
     [ split;
       [ let U := fresh "U" in
         intros U; first [ reflexivity | absent U ]
       | let P := fresh "P" in
         intros P; first [ discriminate P | present ] ]
     | let P := fresh "P" in
       intros P;
       first [ discriminate P
             | split;
               [ first [ left; reflexivity
                       | right; split; [reflexivity | eexists; reflexivity] ]
               | repeat split; reflexivity ] ] ])).
Qed.

(* ------------------------------------------------------------------ *)
(** * More on the helpers *)

(** X5.  [check_dependencies], for modules that are installed or missing,
    touches no file: it returns [True] exactly when both can be imported,
    then without printing; otherwise it catches the [ImportError], prints
    its text, which names the first missing module between quotes, and the
    install hint, and returns [False]. *)
Theorem check_dependencies_outcomes :
  forall (e : env) (w : world),
    exists w' events,
      check_dependencies e w = (Ok (has_build e && has_twine e), w') /\
      manifest w' = manifest w /\ backup w' = backup w /\
      dist w' = dist w /\ stdin w' = stdin w /\
      log w' = log w ++ events /\
      events =
        (if has_build e && has_twine e then []
         else [Print Error
                 (if has_build e
                  then txt "Missing dependency: No module named 'twine'"
                  else txt "Missing dependency: No module named 'build'");
               Print Info (txt "Install with: pip install build twine")]).
Proof.
  intros [av [|] [|] sh dw wd] [m b d i l]; run;
    do 2 eexists; repeat split;
    first [ symmetry; apply app_nil_r | flatten_log; reflexivity ].
Qed.


(** X12.  The read after the rewrite: for every manifest with a version
    line and every new value that is not empty and holds no double quote,
    no carriage return and no backslash, the text [update_version] asks
    the disk to store reads back as the new value. *)
Theorem read_after_rewrite :
  forall (new c cur : text),
    new <> [] -> forallb not_dquote new = true -> no_CR new = true ->
    no_backslash new = true ->
    read_version c = Some cur ->
    read_version (requested new c) = Some new.
Proof.
  intros new c cur Ne Q N _. apply sound_write_verifies; assumption.
Qed.

Lemma read_after_rewrite_witness :
  read_version sample_manifest = Some (txt "1.2.3") /\
  read_version (requested (txt "2.0.0rc1") sample_manifest)
    = Some (txt "2.0.0rc1").
Proof.
  split; [vm_compute; reflexivity|].
  apply read_after_rewrite with (cur := txt "1.2.3");
    [discriminate | reflexivity | reflexivity | reflexivity
    | vm_compute; reflexivity].
Defined.

(* ------------------------------------------------------------------ *)
(** * The paths and the runs at the sample project *)

Lemma end_of_input_at_first_prompt_witness :
  read_version sample_manifest = Some (txt "1.2.3") /\
  exists w' events,
    run_deploy (sample_env sample_shell sound_disk)
               (typing [] (sample_world [])) = (Uncaught EOFError, w') /\
    manifest w' = manifest (sample_world []) /\
    backup w' = backup (sample_world []) /\
    dist w' = dist (sample_world []) /\
    log w' = log (sample_world []) ++ events /\
    forallb quiet events = true.
Proof.
  split; [by_computation|].
  apply end_of_input_at_first_prompt
    with (prog := txt "deploy.py") (version := txt "1.2.4")
         (c := sample_manifest) (cur := txt "1.2.3");
    by_computation.
Defined.

Lemma failed_clean_is_rolled_back_witness :
  succeeded (shell (sample_env (failing_at clean_command None) sound_disk) clean_command)
    = false /\
  exists w' events,
    run_deploy (sample_env (failing_at clean_command None) sound_disk)
               (typing [Types (txt "y")] (sample_world [])) = (Exit 1, w') /\
    manifest w' = Some sample_manifest /\ backup w' = None /\
    dist w' = dist_left (shell (sample_env (failing_at clean_command None) sound_disk)
                           clean_command) (dist (sample_world [])) /\
    log w' = log (sample_world []) ++ events /\
    executed events = [clean_command].
Proof.
  split; [reflexivity|].
  apply failed_clean_is_rolled_back
    with (prog := txt "deploy.py") (version := txt "1.2.4")
         (c := sample_manifest) (cur := txt "1.2.3")
         (stored := requested (txt "1.2.4") sample_manifest);
    by_computation.
Defined.

Lemma failed_build_is_rolled_back_witness :
  succeeded (shell (sample_env (failing_at build_command None) sound_disk)
               build_command) = false /\
  exists w' events,
    run_deploy (sample_env (failing_at build_command None) sound_disk)
               (typing [Types (txt "y")] (sample_world [])) = (Exit 1, w') /\
    manifest w' = Some sample_manifest /\ backup w' = None /\
    dist w' = dist_left (shell (sample_env (failing_at build_command None)
                                  sound_disk) build_command) None /\
    log w' = log (sample_world []) ++ events /\
    executed events = [clean_command; build_command].
Proof.
  split; [reflexivity|].
  apply failed_build_is_rolled_back
    with (prog := txt "deploy.py") (version := txt "1.2.4")
         (c := sample_manifest) (cur := txt "1.2.3")
         (stored := requested (txt "1.2.4") sample_manifest)
         (out1 := []) (err1 := []);
    by_computation.
Defined.

Lemma no_answer_at_second_prompt_is_rolled_back_witness :
  ([CtrlC] = [] \/ exists rest : list keyboard, [CtrlC] = CtrlC :: rest) /\
  exists w' events,
    run_deploy (sample_env sample_shell sound_disk)
               (typing [Types (txt "y"); CtrlC] (sample_world []))
      = (Exit 1, w') /\
    manifest w' = Some sample_manifest /\ backup w' = None /\
    dist w' = Some sample_files /\
    log w' = log (sample_world []) ++ events /\
    executed events = [clean_command; build_command].
Proof.
  split; [right; exists []; reflexivity|].
  apply no_answer_at_second_prompt_is_rolled_back
    with (prog := txt "deploy.py") (version := txt "1.2.4")
         (c := sample_manifest) (cur := txt "1.2.3")
         (stored := requested (txt "1.2.4") sample_manifest)
         (out1 := []) (err1 := []) (d1 := None)
         (out2 := []) (err2 := []);
    first [ by_computation | right; exists []; reflexivity ].
Defined.

Lemma deployment_succeeds_witness :
  affirmative (txt "Y") = true /\
  exists w' events,
    run_deploy (sample_env sample_shell sound_disk)
               (typing [Types (txt "y"); Types (txt "Y")] (sample_world []))
      = (Exit 0, w') /\
    manifest w' = Some (requested (txt "1.2.4") sample_manifest) /\
    backup w' = None /\
    dist w' = Some sample_files /\ stdin w' = [] /\
    log w' = log (sample_world []) ++ events /\
    executed events = [clean_command; build_command; upload_command] /\
    ~ In (CopyFile Backup Manifest) events.
Proof.
  split; [reflexivity|].
  apply deployment_succeeds
    with (prog := txt "deploy.py") (version := txt "1.2.4")
         (c := sample_manifest) (cur := txt "1.2.3")
         (out1 := []) (err1 := []) (d1 := None)
         (out2 := []) (err2 := [])
         (f := txt "demo-1.2.4.tar.gz")
         (files := [txt "demo-1.2.4-py3-none-any.whl"])
         (out3 := []) (err3 := []);
    by_computation.
Defined.

Lemma failed_upload_is_rolled_back_witness :
  succeeded (shell (sample_env (failing_at upload_command (Some sample_files)) sound_disk)
               upload_command) = false /\
  exists w' events,
    run_deploy (sample_env (failing_at upload_command (Some sample_files)) sound_disk)
               (typing [Types (txt "y"); Types (txt "y")] (sample_world []))
      = (Exit 1, w') /\
    manifest w' = Some sample_manifest /\ backup w' = None /\
    dist w' = dist_left (shell (sample_env (failing_at upload_command (Some sample_files))
                                  sound_disk) upload_command)
                        (Some sample_files) /\
    log w' = log (sample_world []) ++ events /\
    executed events = [clean_command; build_command; upload_command].
Proof.
  split; [reflexivity|].
  apply failed_upload_is_rolled_back
    with (prog := txt "deploy.py") (version := txt "1.2.4")
         (c := sample_manifest) (cur := txt "1.2.3")
         (stored := requested (txt "1.2.4") sample_manifest)
         (out1 := []) (err1 := []) (d1 := None)
         (out2 := []) (err2 := []);
    by_computation.
Defined.

Lemma commit_or_rollback_witness :
  affirmative (txt "y") = true /\
  exists w',
    (run_deploy (sample_env sample_shell sound_disk)
       (typing (Types (txt "y") :: [CtrlC]) (sample_world [])) = (Exit 0, w') /\
     manifest w' = Some (requested (txt "1.2.4") sample_manifest) /\
     backup w' = None) \/
    (run_deploy (sample_env sample_shell sound_disk)
       (typing (Types (txt "y") :: [CtrlC]) (sample_world [])) = (Exit 1, w') /\
     manifest w' = Some sample_manifest /\ backup w' = None).
Proof.
  split; [reflexivity|].
  apply commit_or_rollback
    with (prog := txt "deploy.py") (version := txt "1.2.4")
         (cur := txt "1.2.3");
    by_computation.
Defined.

Lemma no_confirmation_no_change_witness :
  affirmative (txt "no") = false /\
  exists t w' events,
    run_deploy (sample_env sample_shell sound_disk)
               (sample_world [Types (txt "no")]) = (t, w') /\
    manifest w' = manifest (sample_world [Types (txt "no")]) /\
    backup w' = backup (sample_world [Types (txt "no")]) /\
    dist w' = dist (sample_world [Types (txt "no")]) /\
    log w' = log (sample_world [Types (txt "no")]) ++ events /\
    forallb quiet events = true.
Proof.
  split; [reflexivity|].
  apply no_confirmation_no_change.
  intros line rest H. cbn in H. injection H as <- _. reflexivity.
Defined.

Lemma original_never_lost_witness :
  manifest (sample_world [Types (txt "y")]) = Some sample_manifest /\
  exists t w',
    run_deploy (sample_env sample_shell full_disk)
               (sample_world [Types (txt "y")]) = (t, w') /\
    (manifest w' = Some sample_manifest \/ backup w' = Some sample_manifest \/
     (t = Exit 0 /\ backup w' = None /\
      exists stored,
        manifest w' = Some stored /\
        read_version stored
          = Some (nth 1 (argv (sample_env sample_shell full_disk)) []))).
Proof.
  split; [reflexivity|].
  apply original_never_lost. reflexivity.
Defined.
